(** * Character systems of db-path-to-power: a shallow embedding

    The JavaScript classes under [src/systems] (BaseStats, Attributes,
    Resources, DerivedStats, CombatStats, Resistances) and the [Character]
    composition root are embedded as Rocq functions over explicit state.

    Conventions of the embedding.
    - A JavaScript number is an exact rational ([Q]); [Math.floor],
      [Math.ceil], [Math.round], [Math.min] and [Math.max] are the
      corresponding operations on [Q].  Rounding of IEEE doubles, [NaN] and
      the infinities are outside the model.
    - [console.log]/[console.warn]/[console.error] have no effect on the
      state and are dropped.
    - A method that mutates [this] takes the object and returns the updated
      object next to its JavaScript return value.
    - The [CharacterBaseStats] object is shared between the [Character] and
      its [CharacterAttributes]; it lives in a store indexed by references,
      and [CharacterAttributes.baseStats] holds a reference (or [null]).
    - [Math.random] is a cursor into an infinite sequence of rolls. *)

From stdpp Require Import base option gmap.
From Stdlib Require Import QArith Qround Qminmax Lqa Lia ZArith String List Bool.
From Equations Require Import Equations.
Import ListNotations.

Local Open Scope Q_scope.

(** ** JavaScript numbers *)

Module JS.

Definition number := Q.

(** [a < b] on numbers, as a boolean. *)
Definition ltb (a b : number) : bool := negb (Qle_bool b a).
(** [a <= b] and [a >= b]. *)
Definition leb (a b : number) : bool := Qle_bool a b.
Definition geb (a b : number) : bool := Qle_bool b a.
Definition gtb (a b : number) : bool := negb (Qle_bool a b).

(** [Math.floor], [Math.ceil]: the result is again a number. *)
Definition floor (x : number) : number := inject_Z (Qfloor x).
Definition ceil (x : number) : number := inject_Z (Qceiling x).
(** [Math.round] rounds to the nearest integer, ties towards +infinity. *)
Definition round (x : number) : number := inject_Z (Qfloor (x + 0.5)).

Definition min (a b : number) : number := Qmin a b.
Definition max (a b : number) : number := Qmax a b.

(** What a method returns when its result is a number on one path and a
    boolean on another. *)
Inductive value :=
  | VNum (n : number)
  | VBool (b : bool).

(** References to heap-allocated objects. *)
Definition ref := nat.

(** [String.prototype.toLowerCase] on the letters A-Z; every other
    character is kept.  (Of the characters outside ASCII that JavaScript
    would change, only the Kelvin sign and the dotted capital I yield an
    ASCII letter, k and i; none of the strings the code compares a
    lower-cased string with contains one of these.) *)
Definition lowerChar (ch : Ascii.ascii) : Ascii.ascii :=
  let n := Ascii.nat_of_ascii ch in
  if (Nat.leb 65 n && Nat.leb n 90)%bool
  then Ascii.ascii_of_nat (n + 32) else ch.

Fixpoint toLowerCase (str : string) : string :=
  match str with
  | EmptyString => EmptyString
  | String ch rest => String (lowerChar ch) (toLowerCase rest)
  end.

(** A property value of arbitrary type, as far as [typeof v === 'number']
    can tell: a number, or something else. *)
Inductive any :=
| ANum (n : number)
| AOther.

End JS.

(** Comparisons, rounding and clamping on numbers: the facts the
    termination argument and the proofs below rest on. *)

Module JSFacts.

Lemma leb_true a b : JS.leb a b = true <-> a <= b.
Proof. unfold JS.leb. apply Qle_bool_iff. Qed.

Lemma leb_false a b : JS.leb a b = false <-> b < a.
Proof.
  unfold JS.leb. rewrite <- not_true_iff_false, Qle_bool_iff.
  split; [apply Qnot_le_lt | apply Qlt_not_le].
Qed.

Lemma geb_true a b : JS.geb a b = true <-> b <= a.
Proof. apply leb_true. Qed.

Lemma geb_false a b : JS.geb a b = false <-> a < b.
Proof. apply leb_false. Qed.

Lemma ltb_true a b : JS.ltb a b = true <-> a < b.
Proof. unfold JS.ltb. rewrite negb_true_iff. apply leb_false. Qed.

Lemma ltb_false a b : JS.ltb a b = false <-> b <= a.
Proof. unfold JS.ltb. rewrite negb_false_iff. apply leb_true. Qed.

Lemma gtb_true a b : JS.gtb a b = true <-> b < a.
Proof. unfold JS.gtb. rewrite negb_true_iff. apply leb_false. Qed.

Lemma gtb_false a b : JS.gtb a b = false <-> a <= b.
Proof. unfold JS.gtb. rewrite negb_false_iff. apply leb_true. Qed.

Lemma floor_le x : JS.floor x <= x.
Proof. apply Qfloor_le. Qed.

Lemma floor_lt x : x < JS.floor x + 1.
Proof.
  unfold JS.floor. pose proof (Qlt_floor x) as H.
  rewrite inject_Z_plus in H. exact H.
Qed.

Lemma floor_mono x y : x <= y -> JS.floor x <= JS.floor y.
Proof.
  intros H. unfold JS.floor. rewrite <- Zle_Qle. now apply Qfloor_resp_le.
Qed.


(** The next threshold of a threshold of at least 1 is at least 1. *)
Lemma floor_scaled_ge_one x : 1 <= x -> 1 <= JS.floor (x * 1.2).
Proof.
  intros H. change 1 with (JS.floor (inject_Z 1)) at 1.
  apply floor_mono. change (inject_Z 1) with 1. lra.
Qed.



Lemma ceil_ge x : x <= JS.ceil x.
Proof. apply Qle_ceiling. Qed.

(** Turn every boolean comparison met in the goal into its proposition. *)
Ltac js_compare :=
  repeat match goal with
  | |- context [JS.leb ?a ?b] =>
      let E := fresh "E" in
      destruct (JS.leb a b) eqn:E;
      [apply leb_true in E | apply leb_false in E]
  | |- context [JS.ltb ?a ?b] =>
      let E := fresh "E" in
      destruct (JS.ltb a b) eqn:E;
      [apply ltb_true in E | apply ltb_false in E]
  | |- context [JS.geb ?a ?b] =>
      let E := fresh "E" in
      destruct (JS.geb a b) eqn:E;
      [apply geb_true in E | apply geb_false in E]
  | |- context [JS.gtb ?a ?b] =>
      let E := fresh "E" in
      destruct (JS.gtb a b) eqn:E;
      [apply gtb_true in E | apply gtb_false in E]
  end.

(** Replace every [Math.min]/[Math.max] by a number known through an
    equation, one case per way the comparison can go. *)
Ltac js_clamp :=
  unfold JS.min, JS.max in *;
  repeat match goal with
  | |- context [Qmin ?a ?b] =>
      let m := fresh "m" in
      destruct (Q.min_spec a b) as [[? ?] | [? ?]];
      set (m := Qmin a b) in *; clearbody m
  | |- context [Qmax ?a ?b] =>
      let m := fresh "m" in
      destruct (Q.max_spec a b) as [[? ?] | [? ?]];
      set (m := Qmax a b) in *; clearbody m
  | H : context [Qmin ?a ?b] |- _ =>
      let m := fresh "m" in
      destruct (Q.min_spec a b) as [[? ?] | [? ?]];
      set (m := Qmin a b) in *; clearbody m
  | H : context [Qmax ?a ?b] |- _ =>
      let m := fresh "m" in
      destruct (Q.max_spec a b) as [[? ?] | [? ?]];
      set (m := Qmax a b) in *; clearbody m
  end.

End JSFacts.

(** ** src/systems/BaseStats.js *)

Module BaseStats.

Inductive StatKey := HP | KI | STA | STR | VIT | TEC | WIS | AURA | AGI.

(** The frozen table [StatKeys]: the string value of every key. *)
Definition StatKeys (k : StatKey) : string :=
  match k with
  | HP => "hp" | KI => "ki" | STA => "sta"
  | STR => "str" | VIT => "vit" | TEC => "tec"
  | WIS => "wis" | AURA => "aura" | AGI => "agi"
  end.

Definition keys : list StatKey := [HP; KI; STA; STR; VIT; TEC; WIS; AURA; AGI].

(** [Object.values(StatKeys).includes(statKey)], returning the key found. *)
Definition lookupKey (statKey : string) : option StatKey :=
  find (fun k => String.eqb (StatKeys k) statKey) keys.

Definition validKey (statKey : string) : bool :=
  match lookupKey statKey with Some _ => true | None => false end.

Record CharacterBaseStats := mk {
  hp : JS.number;
  ki : JS.number;
  sta : JS.number;
  str : JS.number;
  vit : JS.number;
  tec : JS.number;
  wis : JS.number;
  aura : JS.number;
  agi : JS.number
  }.

(** The constructor's argument: every field may be absent. *)
Record Config := mkConfig {
  c_hp : option JS.number;
  c_ki : option JS.number;
  c_sta : option JS.number;
  c_str : option JS.number;
  c_vit : option JS.number;
  c_tec : option JS.number;
  c_wis : option JS.number;
  c_aura : option JS.number;
  c_agi : option JS.number
  }.

Definition emptyConfig : Config :=
  mkConfig None None None None None None None None None.

Definition new (cfg : Config) : CharacterBaseStats :=
  {| hp := default 100 (c_hp cfg);
     ki := default 50 (c_ki cfg);
     sta := default 75 (c_sta cfg);
     str := default 10 (c_str cfg);
     vit := default 10 (c_vit cfg);
     tec := default 10 (c_tec cfg);
     wis := default 10 (c_wis cfg);
     aura := default 10 (c_aura cfg);
     agi := default 10 (c_agi cfg) |}.

(** [this[key]] for one of the nine own properties. *)
Definition get (k : StatKey) (s : CharacterBaseStats) : JS.number :=
  match k with
  | HP => hp s | KI => ki s | STA => sta s
  | STR => str s | VIT => vit s | TEC => tec s
  | WIS => wis s | AURA => aura s | AGI => agi s
  end.

(** [this[key] = v]. *)
Definition set (k : StatKey) (v : JS.number) (s : CharacterBaseStats)
  : CharacterBaseStats :=
  match k with
  | HP => mk v (ki s) (sta s) (str s) (vit s) (tec s) (wis s) (aura s) (agi s)
  | KI => mk (hp s) v (sta s) (str s) (vit s) (tec s) (wis s) (aura s) (agi s)
  | STA => mk (hp s) (ki s) v (str s) (vit s) (tec s) (wis s) (aura s) (agi s)
  | STR => mk (hp s) (ki s) (sta s) v (vit s) (tec s) (wis s) (aura s) (agi s)
  | VIT => mk (hp s) (ki s) (sta s) (str s) v (tec s) (wis s) (aura s) (agi s)
  | TEC => mk (hp s) (ki s) (sta s) (str s) (vit s) v (wis s) (aura s) (agi s)
  | WIS => mk (hp s) (ki s) (sta s) (str s) (vit s) (tec s) v (aura s) (agi s)
  | AURA => mk (hp s) (ki s) (sta s) (str s) (vit s) (tec s) (wis s) v (agi s)
  | AGI => mk (hp s) (ki s) (sta s) (str s) (vit s) (tec s) (wis s) (aura s) v
  end.

(** [getStat]: the object's own properties are exactly the nine stats. *)
Definition getStat (statKey : string) (s : CharacterBaseStats) : JS.number :=
  match lookupKey statKey with
  | Some k => get k s
  | None => 0
  end.

(** [increaseStat(statKey, amount = 1)]. *)
Definition increaseStat (statKey : string) (amount : JS.number)
    (s : CharacterBaseStats) : bool * CharacterBaseStats :=
  match lookupKey statKey with
  | None => (false, s)
  | Some k =>
      if JS.leb amount 0 then (false, s)
      else (true, set k (get k s + amount) s)
  end.

(** [setStats(statsObject)].  The object is the list of its enumerable
    properties in [for ... in] order; an entry is written when its key is
    one of the nine stat keys and its value is a number >= 0, and skipped
    otherwise. *)
Definition setStat1 (s : CharacterBaseStats) (entry : string * JS.any)
  : CharacterBaseStats :=
  let '(key, v) := entry in
  match lookupKey key with
  | Some k =>
      match v with
      | JS.ANum n => if JS.geb n 0 then set k n s else s
      | JS.AOther => s
      end
  | None => s
  end.

Definition setStats (statsObject : list (string * JS.any))
    (s : CharacterBaseStats) : CharacterBaseStats :=
  fold_left setStat1 statsObject s.

(** Every stat is non-negative. *)
Definition allNonneg (s : CharacterBaseStats) : Prop :=
  forall k, 0 <= get k s.

(** An entry that [setStats] writes to the stat [k]: its key is the key of
    [k] and its value a number >= 0. *)
Definition writes (k : StatKey) (entry : string * JS.any) : Prop :=
  exists n, entry = (StatKeys k, JS.ANum n) /\ 0 <= n.

(** [getAllStats()]: a new object with the nine stat keys, in the order of
    [StatKeys]. *)
Definition getAllStats (s : CharacterBaseStats) : list (string * JS.number) :=
  map (fun k => (StatKeys k, get k s)) keys.

End BaseStats.

(** ** src/systems/Attributes.js *)

Module Attributes.

Definition Races : list string :=
  ["Saiyan"; "Human"; "Namekian"; "Android"; "Frieza Race"; "Majin"]%string.
Definition Race_HUMAN : string := "Human".

Definition Alignments : list string :=
  ["Pure Good"; "Good"; "Neutral"; "Evil"; "Pure Evil"]%string.
Definition Alignment_NEUTRAL : string := "Neutral".

(** [list.includes(x)] on strings. *)
Definition includes (l : list string) (x : string) : bool :=
  existsb (String.eqb x) l.

Record CharacterAttributes := mk {
  level : JS.number;
  xp : JS.number;
  xpToNextLevel : JS.number;
  race : string;
  potential : JS.number;
  potentialCap : JS.number;
  alignment : string;
  unallocatedStatPoints : JS.number;
  skillPoints : JS.number;
  baseStats : option JS.ref
  }.

Record Config := mkConfig {
  c_level : option JS.number;
  c_xp : option JS.number;
  c_xpToNextLevel : option JS.number;
  c_race : option string;
  c_potential : option JS.number;
  c_alignment : option string;
  c_unallocatedStatPoints : option JS.number;
  c_skillPoints : option JS.number;
  c_potentialCap : option JS.number;
  c_baseStats : option JS.ref
  }.

Definition emptyConfig : Config :=
  mkConfig None None None None None None None None None None.

(** The constructor.  [potentialCap] defaults to the (already defaulted)
    [potential]; race and alignment are validated, nothing else is. *)
Definition new (cfg : Config) : CharacterAttributes :=
  let potential0 := default 0.1 (c_potential cfg) in
  let race0 := default Race_HUMAN (c_race cfg) in
  let alignment0 := default Alignment_NEUTRAL (c_alignment cfg) in
  {| level := default 1 (c_level cfg);
     xp := default 0 (c_xp cfg);
     xpToNextLevel := default 100 (c_xpToNextLevel cfg);
     race := if includes Races race0 then race0 else Race_HUMAN;
     potential := potential0;
     potentialCap := default potential0 (c_potentialCap cfg);
     alignment :=
       if includes Alignments alignment0 then alignment0
       else Alignment_NEUTRAL;
     unallocatedStatPoints := default 0 (c_unallocatedStatPoints cfg);
     skillPoints := default 0 (c_skillPoints cfg);
     baseStats := c_baseStats cfg |}.

Definition set_xp (v : JS.number) (a : CharacterAttributes) :=
  mk (level a) v (xpToNextLevel a) (race a) (potential a) (potentialCap a)
     (alignment a) (unallocatedStatPoints a) (skillPoints a) (baseStats a).

Definition set_unallocatedStatPoints (v : JS.number) (a : CharacterAttributes) :=
  mk (level a) (xp a) (xpToNextLevel a) (race a) (potential a)
     (potentialCap a) (alignment a) v (skillPoints a) (baseStats a).

Definition set_skillPoints (v : JS.number) (a : CharacterAttributes) :=
  mk (level a) (xp a) (xpToNextLevel a) (race a) (potential a)
     (potentialCap a) (alignment a) (unallocatedStatPoints a) v (baseStats a).

Definition set_potential (v : JS.number) (a : CharacterAttributes) :=
  mk (level a) (xp a) (xpToNextLevel a) (race a) v (potentialCap a)
     (alignment a) (unallocatedStatPoints a) (skillPoints a) (baseStats a).

(** [levelUp()]. *)
Definition levelUp (a : CharacterAttributes) : CharacterAttributes :=
  let newStatPoints := 5 in
  let newSkillPoints := 1 in
  {| level := level a + 1;
     xp := xp a;
     xpToNextLevel := JS.floor (xpToNextLevel a * 1.2);
     race := race a;
     potential := potential a;
     potentialCap := potentialCap a;
     alignment := alignment a;
     unallocatedStatPoints := unallocatedStatPoints a + newStatPoints;
     skillPoints := skillPoints a + newSkillPoints;
     baseStats := baseStats a |}.

(** One pass through the body of the [while] loop of [addXP]. *)
Definition cascadeBody (a : CharacterAttributes) : CharacterAttributes :=
  levelUp (set_xp (xp a - xpToNextLevel a) a).

(** The loop guard [this.xp >= this.xpToNextLevel]. *)
Definition cascadeGuard (a : CharacterAttributes) : bool :=
  JS.geb (xp a) (xpToNextLevel a).

(** The [while] loop of [addXP]; [None] when the fuel does not suffice. *)
Fixpoint cascade (fuel : nat) (a : CharacterAttributes)
  : option CharacterAttributes :=
  if cascadeGuard a then
    match fuel with
    | O => None
    | S fuel' => cascade fuel' (cascadeBody a)
    end
  else Some a.

(** [addXP(amount)]. *)
Definition addXP (fuel : nat) (amount : JS.number) (a : CharacterAttributes)
  : option CharacterAttributes :=
  cascade fuel (set_xp (xp a + amount) a).

(** [allocateStatPoint(statKey)], over the store [h] of base-stat objects.
    A reference always points to a live object; the branch for a missing
    one leaves everything as it is. *)
Definition allocateStatPoint (statKey : string) (a : CharacterAttributes)
    (h : gmap JS.ref BaseStats.CharacterBaseStats)
  : bool * CharacterAttributes * gmap JS.ref BaseStats.CharacterBaseStats :=
  if JS.leb (unallocatedStatPoints a) 0 then (false, a, h)
  else
    match baseStats a with
    | None => (false, a, h)
    | Some r =>
        if negb (BaseStats.validKey statKey) then (false, a, h)
        else
          match h !! r with
          | None => (false, a, h)
          | Some s =>
              let '(success, s') := BaseStats.increaseStat statKey 1 s in
              if success then
                (true,
                 set_unallocatedStatPoints (unallocatedStatPoints a - 1) a,
                 <[r := s']> h)
              else (false, a, h)
          end
    end.

(** [useSkillPoint(skillId)]. *)
Definition useSkillPoint (skillId : string) (a : CharacterAttributes)
  : bool * CharacterAttributes :=
  if JS.gtb (skillPoints a) 0
  then (true, set_skillPoints (skillPoints a - 1) a)
  else (false, a).

(** [increasePotential(amount)]. *)
Definition increasePotential (amount : JS.number) (a : CharacterAttributes)
  : CharacterAttributes :=
  set_potential (JS.min (potential a + amount) (potentialCap a)) a.

(** A sequence of [increasePotential] calls, one per amount. *)
Definition increasePotentials (amounts : list JS.number)
    (a : CharacterAttributes) : CharacterAttributes :=
  fold_left (fun a0 amount => increasePotential amount a0) amounts a.


(** *** The loop of [addXP] as a total function

    With a threshold of at least 1 every pass lowers the integer part of
    [xp], so the loop is a function by well-founded recursion. *)



Lemma cascadeBody_threshold a :
  1 <= xpToNextLevel a -> 1 <= xpToNextLevel (cascadeBody a).
Proof. intros H. simpl. now apply JSFacts.floor_scaled_ge_one. Qed.




End Attributes.

(** ** src/systems/Resources.js *)

Module Resources.

Inductive ResourceKey := HEALTH | KI | STAMINA | FATIGUE.

(** The frozen table [ResourceKeys]. *)
Definition ResourceKeys (k : ResourceKey) : string :=
  match k with
  | HEALTH => "health" | KI => "ki" | STAMINA => "stamina"
  | FATIGUE => "fatigue"
  end.

(** The numeric own properties of a [CharacterResources] object.  Its
    [attributes] and [baseStats] properties are references that are only
    read; the methods below receive the referenced objects as arguments. *)
Record CharacterResources := mk {
  maxHealth : JS.number;
  maxKi : JS.number;
  maxStamina : JS.number;
  health : JS.number;
  ki : JS.number;
  stamina : JS.number;
  fatigue : JS.number
}.

Definition get (k : ResourceKey) (r : CharacterResources) : JS.number :=
  match k with
  | HEALTH => health r | KI => ki r | STAMINA => stamina r
  | FATIGUE => fatigue r
  end.

Definition set (k : ResourceKey) (v : JS.number) (r : CharacterResources)
  : CharacterResources :=
  match k with
  | HEALTH => mk (maxHealth r) (maxKi r) (maxStamina r) v (ki r) (stamina r) (fatigue r)
  | KI => mk (maxHealth r) (maxKi r) (maxStamina r) (health r) v (stamina r) (fatigue r)
  | STAMINA => mk (maxHealth r) (maxKi r) (maxStamina r) (health r) (ki r) v (fatigue r)
  | FATIGUE => mk (maxHealth r) (maxKi r) (maxStamina r) (health r) (ki r) (stamina r) v
  end.

(** [calculateMaxValues()]. *)
Definition calculateMaxValues (a : Attributes.CharacterAttributes)
    (s : BaseStats.CharacterBaseStats) (r : CharacterResources)
  : CharacterResources :=
  let level := Attributes.level a in
  let vit := BaseStats.getStat (BaseStats.StatKeys BaseStats.VIT) s in
  let wis := BaseStats.getStat (BaseStats.StatKeys BaseStats.WIS) s in
  let aura := BaseStats.getStat (BaseStats.StatKeys BaseStats.AURA) s in
  let agi := BaseStats.getStat (BaseStats.StatKeys BaseStats.AGI) s in
  let baseHp := BaseStats.getStat (BaseStats.StatKeys BaseStats.HP) s in
  let baseKi := BaseStats.getStat (BaseStats.StatKeys BaseStats.KI) s in
  let baseSta := BaseStats.getStat (BaseStats.StatKeys BaseStats.STA) s in
  {| maxHealth := JS.floor (baseHp + (level * 10) + (vit * 5));
     maxKi := JS.floor (baseKi + (level * 5) + (wis * 3) + (aura * 2));
     maxStamina := JS.floor (baseSta + (level * 5) + (vit * 2) + (agi * 3));
     health := health r;
     ki := ki r;
     stamina := stamina r;
     fatigue := fatigue r |}.

(** [setToMax()]. *)
Definition setToMax (r : CharacterResources) : CharacterResources :=
  {| maxHealth := maxHealth r;
     maxKi := maxKi r;
     maxStamina := maxStamina r;
     health := maxHealth r;
     ki := maxKi r;
     stamina := maxStamina r;
     fatigue := fatigue r |}.

(** The constructor; [None] stands for the thrown [Error]. *)
Definition new (attributes : option Attributes.CharacterAttributes)
    (baseStats : option BaseStats.CharacterBaseStats)
  : option CharacterResources :=
  match attributes, baseStats with
  | Some a, Some s =>
      Some (setToMax (calculateMaxValues a s (mk 0 0 0 0 0 0 0)))
  | _, _ => None
  end.

(** [_modifyResource(key, amount, min = 0, max)], called with one of the
    four [ResourceKeys], all of which are own properties. *)
Definition _modifyResource (key : ResourceKey) (amount min max : JS.number)
    (r : CharacterResources) : JS.number * CharacterResources :=
  let r1 := set key (get key r + amount) r in
  let r2 := set key (JS.max min (JS.min (get key r1) max)) r1 in
  (get key r2, r2).

Definition takeDamage (amount : JS.number) (r : CharacterResources)
  : JS.number * CharacterResources :=
  if JS.leb amount 0 then (health r, r)
  else _modifyResource HEALTH (- amount) 0 (maxHealth r) r.

Definition restoreHealth (amount : JS.number) (r : CharacterResources)
  : JS.number * CharacterResources :=
  if JS.leb amount 0 then (health r, r)
  else _modifyResource HEALTH amount 0 (maxHealth r) r.

Definition useKi (amount : JS.number) (r : CharacterResources)
  : JS.value * CharacterResources :=
  if JS.leb amount 0 then (JS.VNum (ki r), r)
  else if JS.ltb (ki r) amount then (JS.VBool false, r)
  else (JS.VBool true, snd (_modifyResource KI (- amount) 0 (maxKi r) r)).

Definition restoreKi (amount : JS.number) (r : CharacterResources)
  : JS.number * CharacterResources :=
  if JS.leb amount 0 then (ki r, r)
  else _modifyResource KI amount 0 (maxKi r) r.

Definition addFatigue (amount : JS.number) (r : CharacterResources)
  : JS.number * CharacterResources :=
  if JS.leb amount 0 then (fatigue r, r)
  else
    let maxFatigue := 100 in
    _modifyResource FATIGUE amount 0 maxFatigue r.

Definition reduceFatigue (amount : JS.number) (r : CharacterResources)
  : JS.number * CharacterResources :=
  if JS.leb amount 0 then (fatigue r, r)
  else
    let maxFatigue := 100 in
    _modifyResource FATIGUE (- amount) 0 maxFatigue r.

Definition useStamina (amount : JS.number) (r : CharacterResources)
  : JS.value * CharacterResources :=
  if JS.leb amount 0 then (JS.VNum (stamina r), r)
  else if JS.ltb (stamina r) amount then (JS.VBool false, r)
  else
    let r1 := snd (_modifyResource STAMINA (- amount) 0 (maxStamina r) r) in
    let r2 := snd (addFatigue (JS.ceil (amount * 0.1)) r1) in
    (JS.VBool true, r2).

Definition recoverStamina (amount : JS.number) (r : CharacterResources)
  : JS.number * CharacterResources :=
  if JS.leb amount 0 then (stamina r, r)
  else _modifyResource STAMINA amount 0 (maxStamina r) r.

(** [handleStatChange()] (and [updateOnStatChange()], which has the same
    effect on the state). *)
Definition handleStatChange (a : Attributes.CharacterAttributes)
    (s : BaseStats.CharacterBaseStats) (r : CharacterResources)
  : CharacterResources :=
  let r1 := calculateMaxValues a s r in
  let r2 := set HEALTH (JS.min (get HEALTH r1) (maxHealth r1)) r1 in
  let r3 := set KI (JS.min (get KI r2) (maxKi r2)) r2 in
  set STAMINA (JS.min (get STAMINA r3) (maxStamina r3)) r3.

(** The mutators as data, to speak about sequences of calls. *)
Inductive Call :=
| CallTakeDamage (amount : JS.number)
| CallRestoreHealth (amount : JS.number)
| CallUseKi (amount : JS.number)
| CallRestoreKi (amount : JS.number)
| CallUseStamina (amount : JS.number)
| CallRecoverStamina (amount : JS.number)
| CallAddFatigue (amount : JS.number)
| CallReduceFatigue (amount : JS.number).

(** The state after one call (its return value dropped). *)
Definition perform (c : Call) (r : CharacterResources) : CharacterResources :=
  match c with
  | CallTakeDamage a => snd (takeDamage a r)
  | CallRestoreHealth a => snd (restoreHealth a r)
  | CallUseKi a => snd (useKi a r)
  | CallRestoreKi a => snd (restoreKi a r)
  | CallUseStamina a => snd (useStamina a r)
  | CallRecoverStamina a => snd (recoverStamina a r)
  | CallAddFatigue a => snd (addFatigue a r)
  | CallReduceFatigue a => snd (reduceFatigue a r)
  end.

(** The states a sequence of calls passes through, the starting state
    first and the final state last. *)
Fixpoint trace (cs : list Call) (r : CharacterResources)
  : list CharacterResources :=
  match cs with
  | [] => [r]
  | c :: cs' => r :: trace cs' (perform c r)
  end.

(** The pool invariant of the data model: every current value lies between
    0 and its maximum, fatigue between 0 and 100. *)
Definition inBounds (r : CharacterResources) : Prop :=
  (0 <= health r /\ health r <= maxHealth r) /\
  (0 <= ki r /\ ki r <= maxKi r) /\
  (0 <= stamina r /\ stamina r <= maxStamina r) /\
  (0 <= fatigue r /\ fatigue r <= 100).

(** The amount a call was made with. *)
Definition amountOf (c : Call) : JS.number :=
  match c with
  | CallTakeDamage a | CallRestoreHealth a | CallUseKi a | CallRestoreKi a
  | CallUseStamina a | CallRecoverStamina a | CallAddFatigue a
  | CallReduceFatigue a => a
  end.

End Resources.

(** ** src/systems/DerivedStats.js *)

Module DerivedStats.

Record CharacterDerivedStats := mk {
  _basePL : JS.number;
  _effectivePL : JS.number;
  _movementRange : JS.number;
  _turnOrder : JS.number
}.

Definition calculateBasePL (a : Attributes.CharacterAttributes)
    (s : BaseStats.CharacterBaseStats) (d : CharacterDerivedStats)
  : CharacterDerivedStats :=
  let potential := Attributes.potential a in
  let rawPL :=
    BaseStats.getStat (BaseStats.StatKeys BaseStats.STR) s * 1.8 +
    BaseStats.getStat (BaseStats.StatKeys BaseStats.VIT) s * 0.5 +
    BaseStats.getStat (BaseStats.StatKeys BaseStats.TEC) s * 1.5 +
    BaseStats.getStat (BaseStats.StatKeys BaseStats.WIS) s * 0.3 +
    BaseStats.getStat (BaseStats.StatKeys BaseStats.AURA) s * 0.4 +
    BaseStats.getStat (BaseStats.StatKeys BaseStats.AGI) s * 1.0 in
  mk (JS.floor (rawPL * potential)) (_effectivePL d) (_movementRange d)
     (_turnOrder d).

Definition calculateEffectivePL (r : Resources.CharacterResources)
    (d : CharacterDerivedStats) : CharacterDerivedStats :=
  let healthPercent :=
    if JS.gtb (Resources.maxHealth r) 0
    then Resources.health r / Resources.maxHealth r else 0 in
  let kiPercent :=
    if JS.gtb (Resources.maxKi r) 0
    then Resources.ki r / Resources.maxKi r else 0 in
  let staminaPercent :=
    if JS.gtb (Resources.maxStamina r) 0
    then Resources.stamina r / Resources.maxStamina r else 0 in
  let fatigue := Resources.fatigue r in
  let modifier :=
    1.0 * (0.5 + healthPercent * 0.5) * (0.8 + kiPercent * 0.2)
        * (0.7 + staminaPercent * 0.3) * (1.0 - (fatigue / 200)) in
  mk (_basePL d) (JS.max 0 (JS.floor (_basePL d * modifier)))
     (_movementRange d) (_turnOrder d).

Definition calculateMovementRange (s : BaseStats.CharacterBaseStats)
    (d : CharacterDerivedStats) : CharacterDerivedStats :=
  let agi := BaseStats.getStat (BaseStats.StatKeys BaseStats.AGI) s in
  mk (_basePL d) (_effectivePL d) (JS.floor (3 + agi / 10)) (_turnOrder d).

Definition calculateTurnOrder (s : BaseStats.CharacterBaseStats)
    (d : CharacterDerivedStats) : CharacterDerivedStats :=
  let agi := BaseStats.getStat (BaseStats.StatKeys BaseStats.AGI) s in
  let tec := BaseStats.getStat (BaseStats.StatKeys BaseStats.TEC) s in
  mk (_basePL d) (_effectivePL d) (_movementRange d)
     (JS.floor (agi + tec * 0.5)).

Definition updateAll (a : Attributes.CharacterAttributes)
    (s : BaseStats.CharacterBaseStats) (r : Resources.CharacterResources)
    (d : CharacterDerivedStats) : CharacterDerivedStats :=
  calculateTurnOrder s
    (calculateMovementRange s
       (calculateEffectivePL r (calculateBasePL a s d))).

Definition new (a : option Attributes.CharacterAttributes)
    (s : option BaseStats.CharacterBaseStats)
    (r : option Resources.CharacterResources)
  : option CharacterDerivedStats :=
  match a, s, r with
  | Some a, Some s, Some r => Some (updateAll a s r (mk 0 0 0 0))
  | _, _, _ => None
  end.

Definition handleStatChange := updateAll.

Definition handleResourceChange := calculateEffectivePL.

End DerivedStats.

(** ** The random source

    [Math.random()] reads the next element of an infinite sequence of
    rolls; a computation that draws takes the sequence and a cursor and
    returns its result with the advanced cursor. *)

Module Random.

Definition M (A : Type) : Type := (nat -> JS.number) -> nat -> A * nat.

Definition ret {A : Type} (a : A) : M A := fun _ i => (a, i).

Definition bind {A B : Type} (m : M A) (k : A -> M B) : M B :=
  fun rolls i => let '(a, j) := m rolls i in k a rolls j.

(** [Math.random()]. *)
Definition random : M JS.number := fun rolls i => (rolls i, S i).

Module Notations.
Notation "'let*' x ':=' m 'in' k" := (bind m (fun x => k))
  (at level 10, x name, m at level 100, k at level 200).
End Notations.

End Random.

(** ** src/systems/CombatStats.js *)

Module CombatStats.

Import Random.Notations.

(** The keys of [_critTiers]. *)
Inductive TierName := normal | regular | super | mega | omega.

Record Tier := mkTier {
  threshold : JS.number;
  physMultiplier : JS.number;
  energyMultiplier : JS.number;
  defenseIgnore : JS.number;
  guaranteedKnockback : bool
}.

Record CritTiers := mkTiers {
  t_normal : Tier;
  t_regular : Tier;
  t_super : Tier;
  t_mega : Tier;
  t_omega : Tier
}.

(** [this._critTiers[name]]. *)
Definition tier (name : TierName) (t : CritTiers) : Tier :=
  match name with
  | normal => t_normal t | regular => t_regular t | super => t_super t
  | mega => t_mega t | omega => t_omega t
  end.

Record CharacterCombatStats := mk {
  _accuracy : JS.number;
  _evasion : JS.number;
  _critChance : JS.number;
  _critDamage : JS.number;
  _energyCritDamage : JS.number;
  _critTiers : CritTiers;
  _knockback : JS.number;
  _pursuit : JS.number
}.

(** The table the constructor writes before the first recompute. *)
Definition initialTiers : CritTiers :=
  {| t_normal := mkTier 0 1 1 0 false;
     t_regular := mkTier 1 0 0 0 false;
     t_super := mkTier 1.01 0 0 0.25 false;
     t_mega := mkTier 2.01 0 0 0.25 false;
     t_omega := mkTier 3.01 0 0 0.50 true |}.

Definition set_physMultiplier (v : JS.number) (t : Tier) : Tier :=
  mkTier (threshold t) v (energyMultiplier t) (defenseIgnore t)
         (guaranteedKnockback t).

Definition set_energyMultiplier (v : JS.number) (t : Tier) : Tier :=
  mkTier (threshold t) (physMultiplier t) v (defenseIgnore t)
         (guaranteedKnockback t).

Definition calculateAccuracy (s : BaseStats.CharacterBaseStats)
    (c : CharacterCombatStats) : CharacterCombatStats :=
  let tec := BaseStats.getStat (BaseStats.StatKeys BaseStats.TEC) s in
  let agi := BaseStats.getStat (BaseStats.StatKeys BaseStats.AGI) s in
  let baseAccuracy := 50 in
  let tecBonus := (tec / (tec + 60)) * 50 in
  let agiBonus := (agi / (agi + 120)) * 25 in
  mk (baseAccuracy + tecBonus + agiBonus) (_evasion c) (_critChance c)
     (_critDamage c) (_energyCritDamage c) (_critTiers c) (_knockback c)
     (_pursuit c).

Definition calculateEvasion (s : BaseStats.CharacterBaseStats)
    (c : CharacterCombatStats) : CharacterCombatStats :=
  let agi := BaseStats.getStat (BaseStats.StatKeys BaseStats.AGI) s in
  let aura := BaseStats.getStat (BaseStats.StatKeys BaseStats.AURA) s in
  let baseEvasion := 35 in
  let agiBonus := (agi / (agi + 80)) * 60 in
  let auraBonus := (aura / (aura + 150)) * 20 in
  mk (_accuracy c) (baseEvasion + agiBonus + auraBonus) (_critChance c)
     (_critDamage c) (_energyCritDamage c) (_critTiers c) (_knockback c)
     (_pursuit c).

Definition calculateCritChance (s : BaseStats.CharacterBaseStats)
    (c : CharacterCombatStats) : CharacterCombatStats :=
  let tec := BaseStats.getStat (BaseStats.StatKeys BaseStats.TEC) s in
  let baseCrit := 0.05 in
  let tecContribution := tec / 150 in
  mk (_accuracy c) (_evasion c) (baseCrit + tecContribution)
     (_critDamage c) (_energyCritDamage c) (_critTiers c) (_knockback c)
     (_pursuit c).

Definition calculateCritDamage (s : BaseStats.CharacterBaseStats)
    (c : CharacterCombatStats) : CharacterCombatStats :=
  let str := BaseStats.getStat (BaseStats.StatKeys BaseStats.STR) s in
  let baseMultiplier := 1.5 in
  let strBonus := (str / (str + 200)) * 3.5 in
  let critDamage := baseMultiplier + strBonus in
  let t := _critTiers c in
  mk (_accuracy c) (_evasion c) (_critChance c) critDamage
     (_energyCritDamage c)
     {| t_normal := set_physMultiplier 1.0 (t_normal t);
        t_regular := set_physMultiplier critDamage (t_regular t);
        t_super := set_physMultiplier critDamage (t_super t);
        t_mega := set_physMultiplier (critDamage * 1.5) (t_mega t);
        t_omega := set_physMultiplier (critDamage * 2.0) (t_omega t) |}
     (_knockback c) (_pursuit c).

Definition calculateEnergyCritDamage (s : BaseStats.CharacterBaseStats)
    (c : CharacterCombatStats) : CharacterCombatStats :=
  let tec := BaseStats.getStat (BaseStats.StatKeys BaseStats.TEC) s in
  let baseMultiplier := 1.5 in
  let tecBonus := (tec / (tec + 200)) * 3.5 in
  let energyCritDamage := baseMultiplier + tecBonus in
  let t := _critTiers c in
  mk (_accuracy c) (_evasion c) (_critChance c) (_critDamage c)
     energyCritDamage
     {| t_normal := set_energyMultiplier 1.0 (t_normal t);
        t_regular := set_energyMultiplier energyCritDamage (t_regular t);
        t_super := set_energyMultiplier energyCritDamage (t_super t);
        t_mega := set_energyMultiplier (energyCritDamage * 1.5) (t_mega t);
        t_omega := set_energyMultiplier (energyCritDamage * 2.0) (t_omega t) |}
     (_knockback c) (_pursuit c).

Definition calculateKnockback (s : BaseStats.CharacterBaseStats)
    (c : CharacterCombatStats) : CharacterCombatStats :=
  let str := BaseStats.getStat (BaseStats.StatKeys BaseStats.STR) s in
  let baseKnockback := 3 in
  let strBonus := (str / (str + 50)) * 12 in
  mk (_accuracy c) (_evasion c) (_critChance c) (_critDamage c)
     (_energyCritDamage c) (_critTiers c)
     (JS.floor (baseKnockback + strBonus)) (_pursuit c).

Definition calculatePursuit (s : BaseStats.CharacterBaseStats)
    (c : CharacterCombatStats) : CharacterCombatStats :=
  let agi := BaseStats.getStat (BaseStats.StatKeys BaseStats.AGI) s in
  let tec := BaseStats.getStat (BaseStats.StatKeys BaseStats.TEC) s in
  let basePursuit := 5 in
  let agiBonus := (agi / (agi + 75)) * 30 in
  let tecBonus := (tec / (tec + 150)) * 15 in
  mk (_accuracy c) (_evasion c) (_critChance c) (_critDamage c)
     (_energyCritDamage c) (_critTiers c) (_knockback c)
     (JS.floor (basePursuit + agiBonus + tecBonus)).

(** [updateAll()]. *)
Definition updateAll (s : BaseStats.CharacterBaseStats)
    (c : CharacterCombatStats) : CharacterCombatStats :=
  calculatePursuit s
    (calculateKnockback s
       (calculateEnergyCritDamage s
          (calculateCritDamage s
             (calculateCritChance s
                (calculateEvasion s (calculateAccuracy s c)))))).

Definition handleStatChange := updateAll.

(** The constructor; [derivedStats] is stored and never read. *)
Definition new (a : option Attributes.CharacterAttributes)
    (s : option BaseStats.CharacterBaseStats)
  : option CharacterCombatStats :=
  match a, s with
  | Some _, Some s => Some (updateAll s (mk 0 0 0 0 0 initialTiers 0 0))
  | _, _ => None
  end.

Definition effectiveCritChance (c : CharacterCombatStats) : JS.number :=
  JS.min (_critChance c) 1.0.

Definition canSuperCrit (c : CharacterCombatStats) : bool :=
  JS.geb (_critChance c) (threshold (t_super (_critTiers c))).
Definition canMegaCrit (c : CharacterCombatStats) : bool :=
  JS.geb (_critChance c) (threshold (t_mega (_critTiers c))).
Definition canOmegaCrit (c : CharacterCombatStats) : bool :=
  JS.geb (_critChance c) (threshold (t_omega (_critTiers c))).




(** The own property names of [_critTiers]. *)
Definition tierKey (name : TierName) : string :=
  match name with
  | normal => "normal" | regular => "regular" | super => "super"
  | mega => "mega" | omega => "omega"
  end.

Definition tierNames : list TierName := [normal; regular; super; mega; omega].

(** The own property of [_critTiers] named by a string, if any. *)
Definition ownTier (key : string) : option TierName :=
  find (fun n => String.eqb (tierKey n) key) tierNames.

(** The property names every object inherits from [Object.prototype] that
    [toLowerCase] leaves as they are; [_critTiers[key]] is then a function
    or an object, which is truthy and has none of the tier properties. *)
Definition inheritedKeys : list string := ["constructor"; "__proto__"]%string.

(** What [this._critTiers[tierKey]] gives for a lower-cased key, and how a
    property of it reads: the accessors below return the property of an
    own tier, [undefined] ([None]) through an inherited property, and
    their fallback when the lookup is [undefined]. *)
Definition tierProperty {A : Type} (key : string) (property : Tier -> A)
    (fallback : A) (c : CharacterCombatStats) : option A :=
  match ownTier key with
  | Some name => Some (property (tier name (_critTiers c)))
  | None =>
      if existsb (String.eqb key) inheritedKeys then None
      else Some fallback
  end.

(** [getCritMultiplier(tier = 'normal', damageType = 'physical')]. *)
Definition getCritMultiplier (tier damageType : string)
    (c : CharacterCombatStats) : option JS.number :=
  let tierKey := JS.toLowerCase tier in
  tierProperty tierKey
    (fun t =>
       if String.eqb (JS.toLowerCase damageType) "energy"
       then energyMultiplier t else physMultiplier t)
    1.0 c.

(** [getCritDefenseIgnore(tier = 'normal')]. *)
Definition getCritDefenseIgnore (tier : string) (c : CharacterCombatStats)
  : option JS.number :=
  let tierKey := JS.toLowerCase tier in
  tierProperty tierKey defenseIgnore 0 c.

(** [getCritKnockback(tier = 'normal')]. *)
Definition getCritKnockback (tier : string) (c : CharacterCombatStats)
  : option bool :=
  let tierKey := JS.toLowerCase tier in
  tierProperty tierKey guaranteedKnockback false c.

(** The thresholds the constructor writes. *)
Definition standardThresholds (c : CharacterCombatStats) : Prop :=
  threshold (t_normal (_critTiers c)) = 0 /\
  threshold (t_regular (_critTiers c)) = 1 /\
  threshold (t_super (_critTiers c)) = 1.01 /\
  threshold (t_mega (_critTiers c)) = 2.01 /\
  threshold (t_omega (_critTiers c)) = 3.01.

(** The ordering of the energy multipliers of a tier table:
    normal < regular <= super < mega < omega. *)
Definition energyOrdered (t : CritTiers) : Prop :=
  energyMultiplier (t_normal t) < energyMultiplier (t_regular t) /\
  energyMultiplier (t_regular t) <= energyMultiplier (t_super t) /\
  energyMultiplier (t_super t) < energyMultiplier (t_mega t) /\
  energyMultiplier (t_mega t) < energyMultiplier (t_omega t).

(** [rollCriticalHit()].  Each [if (...) { ... if (Math.random() <= ...)
    return tier; }] block is a computation saying whether it returned. *)
Definition rollCriticalHit (c : CharacterCombatStats) : Random.M TierName :=
  let t := _critTiers c in
  let* critRoll := Random.random in
  if JS.gtb critRoll (JS.min (_critChance c) 1.0) then Random.ret normal
  else
    let* isOmega :=
      (if JS.geb (_critChance c) (threshold (t_omega t)) then
         let omegaChance :=
           (_critChance c - threshold (t_omega t) + 0.01) /
           (threshold (t_omega t) - threshold (t_mega t)) in
         let* roll := Random.random in
         Random.ret (JS.leb roll (JS.min omegaChance 1.0))
       else Random.ret false) in
    if isOmega then Random.ret omega
    else
      let* isMega :=
        (if JS.geb (_critChance c) (threshold (t_mega t)) then
           let megaChance :=
             (_critChance c - threshold (t_mega t) + 0.01) /
             (threshold (t_mega t) - threshold (t_super t)) in
           let* roll := Random.random in
           Random.ret (JS.leb roll (JS.min megaChance 1.0))
         else Random.ret false) in
      if isMega then Random.ret mega
      else
        let* isSuper :=
          (if JS.geb (_critChance c) (threshold (t_super t)) then
             let superChance :=
               (_critChance c - threshold (t_super t) + 0.01) /
               (threshold (t_super t) - threshold (t_regular t)) in
             let* roll := Random.random in
             Random.ret (JS.leb roll (JS.min superChance 1.0))
           else Random.ret false) in
        if isSuper then Random.ret super
        else Random.ret regular.

End CombatStats.

(** ** src/systems/Resistances.js *)

Module Resistances.

Inductive ResistanceKey := PHYSICAL | ENERGY | STATUS.

Definition ResistanceKeys (k : ResistanceKey) : string :=
  match k with
  | PHYSICAL => "physicalResist"
  | ENERGY => "energyResist"
  | STATUS => "statusResist"
  end.

Record CharacterResistances := mk {
  _physicalResist : JS.number;
  _energyResist : JS.number;
  _statusResist : JS.number
}.

Definition calculatePhysicalResistance (s : BaseStats.CharacterBaseStats)
    (x : CharacterResistances) : CharacterResistances :=
  let vit := BaseStats.getStat (BaseStats.StatKeys BaseStats.VIT) s in
  let denominatorConstant := 100 in
  let maxResistance := 0.90 in
  mk (JS.min ((vit / (vit + denominatorConstant)) * maxResistance) maxResistance)
     (_energyResist x) (_statusResist x).

Definition calculateEnergyResistance (s : BaseStats.CharacterBaseStats)
    (x : CharacterResistances) : CharacterResistances :=
  let aura := BaseStats.getStat (BaseStats.StatKeys BaseStats.AURA) s in
  let denominatorConstant := 100 in
  let maxResistance := 0.90 in
  mk (_physicalResist x)
     (JS.min ((aura / (aura + denominatorConstant)) * maxResistance) maxResistance)
     (_statusResist x).

Definition calculateStatusResistance (s : BaseStats.CharacterBaseStats)
    (x : CharacterResistances) : CharacterResistances :=
  let vit := BaseStats.getStat (BaseStats.StatKeys BaseStats.VIT) s in
  let wis := BaseStats.getStat (BaseStats.StatKeys BaseStats.WIS) s in
  let aura := BaseStats.getStat (BaseStats.StatKeys BaseStats.AURA) s in
  let denominatorConstant := 120 in
  let maxResistance := 0.85 in
  let vitContribution := (vit / (vit + denominatorConstant)) * 0.40 in
  let wisContribution := (wis / (wis + denominatorConstant)) * 0.30 in
  let auraContribution := (aura / (aura + denominatorConstant)) * 0.15 in
  mk (_physicalResist x) (_energyResist x)
     (JS.min (vitContribution + wisContribution + auraContribution)
             maxResistance).

Definition updateAll (s : BaseStats.CharacterBaseStats)
    (x : CharacterResistances) : CharacterResistances :=
  calculateStatusResistance s
    (calculateEnergyResistance s (calculatePhysicalResistance s x)).

Definition handleStatChange := updateAll.

Definition new (a : option Attributes.CharacterAttributes)
    (s : option BaseStats.CharacterBaseStats)
  : option CharacterResistances :=
  match a, s with
  | Some _, Some s => Some (updateAll s (mk 0 0 0))
  | _, _ => None
  end.

(** [getResistance(key)]: a [switch] over the three key strings. *)
Definition getResistance (key : string) (x : CharacterResistances)
  : JS.number :=
  if String.eqb key (ResistanceKeys PHYSICAL) then _physicalResist x
  else if String.eqb key (ResistanceKeys ENERGY) then _energyResist x
  else if String.eqb key (ResistanceKeys STATUS) then _statusResist x
  else 0.

End Resistances.

(** ** src/Character.js

    The methods of [Character] run over the store that holds its
    [CharacterBaseStats] object and return the store next to the updated
    character. *)

Module Character.

Record Character := mk {
  name : string;
  _baseStats : JS.ref;
  _attributes : Attributes.CharacterAttributes;
  _resources : Resources.CharacterResources;
  _derivedStats : DerivedStats.CharacterDerivedStats;
  _combatStats : CombatStats.CharacterCombatStats;
  _resistances : Resistances.CharacterResistances
}.

Record Config := mkConfig {
  attributesConfig : option Attributes.Config;
  baseStatsConfig : option BaseStats.Config;
  c_name : option string
}.

(** [{ ...attributesConfig, baseStats: this._baseStats }]. *)
Definition linkBaseStats (r : JS.ref) (cfg : Attributes.Config)
  : Attributes.Config :=
  Attributes.mkConfig
    (Attributes.c_level cfg) (Attributes.c_xp cfg)
    (Attributes.c_xpToNextLevel cfg) (Attributes.c_race cfg)
    (Attributes.c_potential cfg) (Attributes.c_alignment cfg)
    (Attributes.c_unallocatedStatPoints cfg) (Attributes.c_skillPoints cfg)
    (Attributes.c_potentialCap cfg) (Some r).

(** The constructor: the new [CharacterBaseStats] object is allocated at a
    fresh reference of the store [h]; [None] stands for an [Error] thrown
    by one of the component constructors. *)
Definition new (cfg : Config) (h : gmap JS.ref BaseStats.CharacterBaseStats)
  : option (Character * gmap JS.ref BaseStats.CharacterBaseStats) :=
  let r := fresh (dom h) in
  let s := BaseStats.new (default BaseStats.emptyConfig (baseStatsConfig cfg)) in
  let a :=
    Attributes.new
      (linkBaseStats r (default Attributes.emptyConfig (attributesConfig cfg))) in
  res ← Resources.new (Some a) (Some s);
  der ← DerivedStats.new (Some a) (Some s) (Some res);
  com ← CombatStats.new (Some a) (Some s);
  rst ← Resistances.new (Some a) (Some s);
  Some (mk (default "Character"%string (c_name cfg)) r a res der com rst,
        <[r := s]> h).

(** The four [handleStatChange()] calls, in the order of the source. *)
Definition propagate (s : BaseStats.CharacterBaseStats) (ch : Character)
  : Character :=
  let res := Resources.handleStatChange (_attributes ch) s (_resources ch) in
  let der :=
    DerivedStats.handleStatChange (_attributes ch) s res (_derivedStats ch) in
  let com := CombatStats.handleStatChange s (_combatStats ch) in
  let rst := Resistances.handleStatChange s (_resistances ch) in
  mk (name ch) (_baseStats ch) (_attributes ch) res der com rst.

Definition set_attributes (a : Attributes.CharacterAttributes) (ch : Character)
  : Character :=
  mk (name ch) (_baseStats ch) a (_resources ch) (_derivedStats ch)
     (_combatStats ch) (_resistances ch).

Definition set_resources (r : Resources.CharacterResources) (ch : Character)
  : Character :=
  mk (name ch) (_baseStats ch) (_attributes ch) r (_derivedStats ch)
     (_combatStats ch) (_resistances ch).

(** [levelUp()].  A reference always points to a live object; the branch
    for a missing one only updates the attributes. *)
Definition levelUp (ch : Character)
    (h : gmap JS.ref BaseStats.CharacterBaseStats)
  : Character * gmap JS.ref BaseStats.CharacterBaseStats :=
  let a := _attributes ch in
  let a1 :=
    Attributes.mk (Attributes.level a + 1) (Attributes.xp a)
      (Attributes.xpToNextLevel a) (Attributes.race a)
      (Attributes.potential a) (Attributes.potentialCap a)
      (Attributes.alignment a) (Attributes.unallocatedStatPoints a + 5)
      (Attributes.skillPoints a) (Attributes.baseStats a) in
  match h !! _baseStats ch with
  | Some s => (propagate s (set_attributes a1 ch), h)
  | None => (set_attributes a1 ch, h)
  end.

(** [allocateStatPoint(statKey)]. *)
Definition allocateStatPoint (statKey : string) (ch : Character)
    (h : gmap JS.ref BaseStats.CharacterBaseStats)
  : Character * gmap JS.ref BaseStats.CharacterBaseStats :=
  if JS.gtb (Attributes.unallocatedStatPoints (_attributes ch)) 0 then
    let '(success, a', h') :=
      Attributes.allocateStatPoint statKey (_attributes ch) h in
    if success then
      match h' !! _baseStats ch with
      | Some s => (propagate s (set_attributes a' ch), h')
      | None => (set_attributes a' ch, h')
      end
    else (set_attributes a' ch, h')
  else (ch, h).

(** [takeDamage(amount, type = ResistanceKeys.PHYSICAL)]; the store is
    passed through as it is. *)
Definition takeDamage (amount : JS.number) (type : option string)
    (ch : Character) (h : gmap JS.ref BaseStats.CharacterBaseStats)
  : Character * gmap JS.ref BaseStats.CharacterBaseStats :=
  let type := default (Resistances.ResistanceKeys Resistances.PHYSICAL) type in
  let resistanceValue := Resistances.getResistance type (_resistances ch) in
  let mitigatedAmount :=
    JS.max 0 (JS.round (amount * (1 - resistanceValue))) in
  (set_resources
     (snd (Resources.takeDamage mitigatedAmount (_resources ch))) ch,
   h).

(** A character whose components agree with its attributes and with the
    base-stat object its reference points to: the attributes are linked to
    that object, the stored maxima are the ones computed from it, and the
    derived, combat and resistance values are fixed by a recompute. *)
Definition inSync (ch : Character)
    (h : gmap JS.ref BaseStats.CharacterBaseStats) : Prop :=
  exists s,
    h !! _baseStats ch = Some s /\
    Attributes.baseStats (_attributes ch) = Some (_baseStats ch) /\
    Resources.calculateMaxValues (_attributes ch) s (_resources ch)
      = _resources ch /\
    DerivedStats.updateAll (_attributes ch) s (_resources ch) (_derivedStats ch)
      = _derivedStats ch /\
    CombatStats.updateAll s (_combatStats ch) = _combatStats ch /\
    Resistances.updateAll s (_resistances ch) = _resistances ch.

(** The mutating methods of [Character] as data, to speak about sequences
    of calls. *)
Inductive Call :=
| CallLevelUp
| CallAllocateStatPoint (statKey : string)
| CallTakeDamage (amount : JS.number) (type : option string).

Definition perform (c : Call)
    (w : Character * gmap JS.ref BaseStats.CharacterBaseStats)
  : Character * gmap JS.ref BaseStats.CharacterBaseStats :=
  match c with
  | CallLevelUp => levelUp (fst w) (snd w)
  | CallAllocateStatPoint statKey => allocateStatPoint statKey (fst w) (snd w)
  | CallTakeDamage amount type => takeDamage amount type (fst w) (snd w)
  end.

Definition run (calls : list Call)
    (w : Character * gmap JS.ref BaseStats.CharacterBaseStats)
  : Character * gmap JS.ref BaseStats.CharacterBaseStats :=
  fold_left (fun w c => perform c w) calls w.

(** A character in good standing: its base-stat object is live, linked
    from the attributes and has non-negative stats; the level is
    non-negative; the stored maxima and the combat and resistance values
    are the ones computed from the stats; the resources are within the
    pool bounds. *)
Definition wellFormed
    (w : Character * gmap JS.ref BaseStats.CharacterBaseStats) : Prop :=
  exists s,
    snd w !! _baseStats (fst w) = Some s /\
    Attributes.baseStats (_attributes (fst w)) = Some (_baseStats (fst w)) /\
    BaseStats.allNonneg s /\
    0 <= Attributes.level (_attributes (fst w)) /\
    Resources.calculateMaxValues (_attributes (fst w)) s (_resources (fst w))
      = _resources (fst w) /\
    CombatStats.updateAll s (_combatStats (fst w)) = _combatStats (fst w) /\
    Resistances.updateAll s (_resistances (fst w)) = _resistances (fst w) /\
    Resources.inBounds (_resources (fst w)).

End Character.

(** ** The specification's descriptions

    Definitions written after the wording of the specification, for the
    statements that compare the code with it. *)

Module Spec.

(** The three tier checks, highest first: the tier, its threshold and the
    next lower threshold. *)
Definition tierChecks (t : CombatStats.CritTiers)
  : list (CombatStats.TierName * JS.number * JS.number) :=
  [ (CombatStats.omega,
     CombatStats.threshold (CombatStats.t_omega t),
     CombatStats.threshold (CombatStats.t_mega t));
    (CombatStats.mega,
     CombatStats.threshold (CombatStats.t_mega t),
     CombatStats.threshold (CombatStats.t_super t));
    (CombatStats.super,
     CombatStats.threshold (CombatStats.t_super t),
     CombatStats.threshold (CombatStats.t_regular t)) ].

(** min((c - threshold + 0.01) / (threshold - nextLowerThreshold), 1.0). *)
Definition tierChance (c threshold lower : JS.number) : JS.number :=
  Qmin ((c - threshold + 0.01) / (threshold - lower)) 1.0.

(** Check the tiers in order: a tier whose threshold exceeds [c] is skipped
    without a draw; a checked tier draws a fresh roll and is the outcome
    exactly when the roll is at most its chance; when every check failed or
    was skipped the outcome is [regular]. *)
Fixpoint checkTiers (c : JS.number)
    (checks : list (CombatStats.TierName * JS.number * JS.number))
    (rolls : nat -> JS.number) (i : nat) : CombatStats.TierName * nat :=
  match checks with
  | [] => (CombatStats.regular, i)
  | (name, threshold, lower) :: rest =>
      if Qle_bool threshold c then
        if Qle_bool (rolls i) (tierChance c threshold lower)
        then (name, S i)
        else checkTiers c rest rolls (S i)
      else checkTiers c rest rolls i
  end.

(** The resolution protocol: the outcome is [normal] exactly when the first
    roll is strictly greater than min(c, 1.0); otherwise the tier checks
    decide. *)
Definition resolveCriticalTier (c : JS.number) (t : CombatStats.CritTiers)
    (rolls : nat -> JS.number) (i : nat) : CombatStats.TierName * nat :=
  if Qle_bool (rolls i) (Qmin c 1.0)
  then checkTiers c (tierChecks t) rolls (S i)
  else (CombatStats.normal, S i).

(** The level-up cascade step: subtract the current threshold, then
    level += 1, unallocatedStatPoints += 5, skillPoints += 1,
    xpToNextLevel := floor(xpToNextLevel * 1.2). *)
Definition levelUpStep (a : Attributes.CharacterAttributes)
  : Attributes.CharacterAttributes :=
  Attributes.mk
    (Attributes.level a + 1)
    (Attributes.xp a - Attributes.xpToNextLevel a)
    (inject_Z (Qfloor (Attributes.xpToNextLevel a * 1.2)))
    (Attributes.race a) (Attributes.potential a) (Attributes.potentialCap a)
    (Attributes.alignment a)
    (Attributes.unallocatedStatPoints a + 5)
    (Attributes.skillPoints a + 1)
    (Attributes.baseStats a).

(** The physical crit-damage value of the specification. *)
Definition critDamage (str : JS.number) : JS.number :=
  1.5 + (str / (str + 200)) * 3.5.

(** The ordering of the physical multipliers of a tier table:
    normal < regular <= super < mega < omega. *)
Definition physOrdered (t : CombatStats.CritTiers) : Prop :=
  CombatStats.physMultiplier (CombatStats.t_normal t)
    < CombatStats.physMultiplier (CombatStats.t_regular t) /\
  CombatStats.physMultiplier (CombatStats.t_regular t)
    <= CombatStats.physMultiplier (CombatStats.t_super t) /\
  CombatStats.physMultiplier (CombatStats.t_super t)
    < CombatStats.physMultiplier (CombatStats.t_mega t) /\
  CombatStats.physMultiplier (CombatStats.t_mega t)
    < CombatStats.physMultiplier (CombatStats.t_omega t).

(** The derivation of the physical multipliers from the crit damage [d]:
    normal = 1.0, regular = super = d, mega = d * 1.5, omega = d * 2.0. *)
Definition physDerived (d : JS.number) (t : CombatStats.CritTiers) : Prop :=
  CombatStats.physMultiplier (CombatStats.t_normal t) = 1.0 /\
  CombatStats.physMultiplier (CombatStats.t_regular t) = d /\
  CombatStats.physMultiplier (CombatStats.t_super t) = d /\
  CombatStats.physMultiplier (CombatStats.t_mega t) = d * 1.5 /\
  CombatStats.physMultiplier (CombatStats.t_omega t) = d * 2.0.

End Spec.

(** * Properties *)

Import JSFacts.

(** ** Critical-hit resolution *)

Section CriticalHit.

Import CombatStats.

Variable c : CharacterCombatStats.
Variable rolls : nat -> JS.number.
Variable i : nat.

(** The tier checks never answer [normal]. *)
Lemma checkTiers_not_normal chance t j :
  fst (Spec.checkTiers chance (Spec.tierChecks t) rolls j) <> normal.
Proof.
  unfold Spec.tierChecks. simpl.
  repeat match goal with
         | |- context [if ?b then _ else _] => destruct b
         end; simpl; discriminate.
Qed.

(** C1. [rollCriticalHit] is the resolution protocol of the specification:
    with the rolls of the random source read from position [i], it returns
    [normal] exactly when the first roll is strictly greater than
    min(critChance, 1.0); otherwise it checks omega, mega and super in this
    order, skipping a tier whose threshold exceeds critChance, drawing a
    fresh roll for each checked tier and returning the tier exactly when
    the roll is at most min((critChance - threshold + 0.01) / (threshold -
    next lower threshold), 1.0); it returns [regular] when all three checks
    failed or were skipped.  The cursor of the random source advances by
    one for every roll drawn. *)
Theorem rollCriticalHit_resolves :
  rollCriticalHit c rolls i
    = Spec.resolveCriticalTier (_critChance c) (_critTiers c) rolls i
  /\ (fst (rollCriticalHit c rolls i) = normal
      <-> Qmin (_critChance c) 1.0 < rolls i).
Proof.
  assert (Heq : rollCriticalHit c rolls i
    = Spec.resolveCriticalTier (_critChance c) (_critTiers c) rolls i).
  { cbv beta iota zeta delta
      [rollCriticalHit Spec.resolveCriticalTier Spec.tierChecks
       Spec.checkTiers Spec.tierChance Random.bind Random.random Random.ret
       JS.gtb JS.geb JS.leb JS.min negb].
    repeat match goal with
           | |- context [Qle_bool ?a ?b] =>
               destruct (Qle_bool a b); cbv beta iota
           end; reflexivity. }
  split; [exact Heq |].
  rewrite Heq. unfold Spec.resolveCriticalTier.
  destruct (Qle_bool (rolls i) (Qmin (_critChance c) 1.0)) eqn:E.
  - apply Qle_bool_iff in E. split.
    + intros H. now apply checkTiers_not_normal in H.
    + intros H. lra.
  - split; [intros _ | reflexivity].
    apply Qnot_le_lt. intros H. apply Qle_bool_iff in H. congruence.
Qed.

End CriticalHit.

(** The recompute never writes a threshold: the table keeps the constants
    0, 1, 1.01, 2.01, 3.01 the constructor put there. *)
Lemma updateAll_thresholds s c n :
  CombatStats.threshold (CombatStats.tier n
    (CombatStats._critTiers (CombatStats.updateAll s c)))
  = CombatStats.threshold (CombatStats.tier n (CombatStats._critTiers c)).
Proof. destruct n; reflexivity. Qed.

Lemma new_thresholds a s c :
  CombatStats.new (Some a) (Some s) = Some c ->
  map (fun n => CombatStats.threshold (CombatStats.tier n (CombatStats._critTiers c)))
      [CombatStats.normal; CombatStats.regular; CombatStats.super;
       CombatStats.mega; CombatStats.omega]
  = [0; 1; 1.01; 2.01; 3.01].
Proof. intros [= <-]. reflexivity. Qed.

(** TEC = 475 reaches the omega check; with every roll 0.5 the omega check
    fails (chance about 0.217), the mega check succeeds, and three rolls
    are drawn. *)
Example rollCriticalHit_tec_475 :
  let s := BaseStats.new (BaseStats.mkConfig None None None None None
                            (Some 475) None None None) in
  option_map (fun c => CombatStats.rollCriticalHit c (fun _ => 0.5) 0%nat)
             (CombatStats.new (Some (Attributes.new Attributes.emptyConfig)) (Some s))
  = Some (CombatStats.mega, 3%nat).
Proof. vm_compute. reflexivity. Qed.

(** ** Tier multipliers *)

Section TierMultipliers.

Import CombatStats.

Lemma critDamage_above_base str : 0 < str -> 1.5 < Spec.critDamage str.
Proof.
  intros H. unfold Spec.critDamage.
  assert (Hd : 0 < str / (str + 200)) by (apply Qlt_shift_div_l; lra).
  set (d := str / (str + 200)) in *. clearbody d. lra.
Qed.

Lemma physDerived_ordered d t : 1.5 < d -> Spec.physDerived d t -> Spec.physOrdered t.
Proof.
  intros Hd (Hn & Hr & Hs & Hm & Ho). unfold Spec.physOrdered.
  rewrite Hn, Hr, Hs, Hm, Ho. repeat split; lra.
Qed.

(** C2. For base stats with STR > 0, after [calculateCritDamage], and after
    the whole recompute [updateAll], the crit damage is
    1.5 + (STR / (STR + 200)) * 3.5, the physical multipliers are 1.0,
    critDamage, critDamage, critDamage * 1.5 and critDamage * 2.0, and
    normal < regular <= super < mega < omega. *)
Theorem physMultipliers_ordered (s : BaseStats.CharacterBaseStats)
    (c : CharacterCombatStats) :
  0 < BaseStats.str s ->
  forall c',
    c' = calculateCritDamage s c \/ c' = updateAll s c ->
    _critDamage c' = Spec.critDamage (BaseStats.str s) /\
    Spec.physDerived (_critDamage c') (_critTiers c') /\
    Spec.physOrdered (_critTiers c') /\
    1.0 < _critDamage c' /\
    _critDamage c' < _critDamage c' * 1.5 /\
    _critDamage c' * 1.5 < _critDamage c' * 2.0.
Proof.
  intros Hstr c' Hc'.
  assert (Hd : _critDamage c' = Spec.critDamage (BaseStats.str s))
    by (destruct Hc' as [-> | ->]; reflexivity).
  assert (Ht : Spec.physDerived (_critDamage c') (_critTiers c'))
    by (destruct Hc' as [-> | ->]; repeat split).
  pose proof (critDamage_above_base _ Hstr) as Hlt.
  rewrite <- Hd in Hlt.
  split; [exact Hd |]. split; [exact Ht |].
  split; [now apply (physDerived_ordered (_critDamage c')) |].
  repeat split; lra.
Qed.

Lemma physMultipliers_ordered_witness :
  Spec.physOrdered (_critTiers (updateAll (BaseStats.new BaseStats.emptyConfig)
                             (mk 0 0 0 0 0 initialTiers 0 0))).
Proof.
  apply (physMultipliers_ordered (BaseStats.new BaseStats.emptyConfig)
           (mk 0 0 0 0 0 initialTiers 0 0)).
  - reflexivity.
  - right. reflexivity.
Defined.

End TierMultipliers.

(** ** Resource pools *)

Section ResourcePools.

Import Resources.

(** [_modifyResource] with lower bound 0 and a non-negative upper bound
    leaves the modified value within the bounds, returns it, and touches
    nothing else. *)
Lemma modifyResource_clamps key amount max r :
  0 <= max ->
  let r' := snd (_modifyResource key amount 0 max r) in
  0 <= get key r' /\ get key r' <= max /\
  fst (_modifyResource key amount 0 max r) = get key r' /\
  maxHealth r' = maxHealth r /\ maxKi r' = maxKi r /\
  maxStamina r' = maxStamina r /\
  forall key', key' <> key -> get key' r' = get key' r.
Proof.
  intros Hmax r'. subst r'. unfold _modifyResource.
  destruct key; cbn [fst snd get set health ki stamina fatigue maxHealth
                     maxKi maxStamina];
    (split; [js_clamp; lra |]);
    (split; [js_clamp; lra |]);
    repeat split; intros [] Hne; try reflexivity; congruence.
Qed.

Ltac unfold_mutators :=
  unfold perform, takeDamage, restoreHealth, useKi, restoreKi, useStamina,
    recoverStamina, addFatigue, reduceFatigue, _modifyResource, inBounds;
  cbn [fst snd get set health ki stamina fatigue maxHealth maxKi maxStamina].

(** Every mutator preserves the pool invariant, whatever the amount. *)
Lemma perform_inBounds call r : inBounds r -> inBounds (perform call r).
Proof.
  destruct r as [mh mk ms h k st f].
  destruct call; unfold_mutators; intros Hr; js_compare;
    cbn [fst snd get set health ki stamina fatigue maxHealth maxKi maxStamina];
    js_clamp; repeat split; lra.
Qed.

(** C3. From a resource state with 0 <= current <= max for health, ki and
    stamina and 0 <= fatigue <= 100, every state that a finite sequence of
    calls to takeDamage, restoreHealth, useKi, restoreKi, useStamina,
    recoverStamina, addFatigue and reduceFatigue passes through, the final
    one included, satisfies the same bounds, for arbitrary amounts. *)
Theorem mutators_keep_bounds (calls : list Call) (r : CharacterResources) :
  inBounds r -> Forall inBounds (trace calls r).
Proof.
  revert r. induction calls as [| call calls IH]; intros r Hr; simpl.
  - constructor; [exact Hr | constructor].
  - constructor; [exact Hr |]. apply IH. now apply perform_inBounds.
Qed.

Lemma mutators_keep_bounds_witness :
  Forall inBounds
    (trace [CallTakeDamage 500; CallRestoreHealth 9999; CallUseKi 20;
            CallUseStamina 45; CallAddFatigue 250; CallReduceFatigue 1000;
            CallRestoreKi (-3); CallRecoverStamina 0.5]
           (mk 160 100 125 160 100 125 0)).
Proof.
  apply (mutators_keep_bounds _ (mk 160 100 125 160 100 125 0)).
  unfold inBounds. cbn. repeat split; discriminate.
Defined.

End ResourcePools.

(** ** Spending ki and stamina *)

Section PoolSpending.

Import Resources.

Lemma ceil_tenth_positive amount : 0 < amount -> 0 < JS.ceil (amount * 0.1).
Proof.
  intros H. pose proof (ceil_ge (amount * 0.1)). lra.
Qed.

(** C7. For an amount > 0: when the amount is strictly greater than the
    current ki (stamina), [useKi] ([useStamina]) returns false and leaves
    the whole resource state as it is; when the amount is at most the
    current pool, in a state within the pool bounds, the call returns true,
    the pool decreases by exactly the amount, [useStamina] moreover raises
    fatigue by ceil(amount * 0.1) clamped to 100, and nothing else
    changes. *)
Theorem use_pool_policy (r : CharacterResources) (amount : JS.number) :
  0 < amount ->
  (ki r < amount -> useKi amount r = (JS.VBool false, r)) /\
  (stamina r < amount -> useStamina amount r = (JS.VBool false, r)) /\
  (inBounds r -> amount <= ki r ->
   exists r',
     useKi amount r = (JS.VBool true, r') /\
     ki r' == ki r - amount /\
     health r' = health r /\ stamina r' = stamina r /\
     fatigue r' = fatigue r /\
     maxHealth r' = maxHealth r /\ maxKi r' = maxKi r /\
     maxStamina r' = maxStamina r) /\
  (inBounds r -> amount <= stamina r ->
   exists r',
     useStamina amount r = (JS.VBool true, r') /\
     stamina r' == stamina r - amount /\
     fatigue r' == Qmin (fatigue r + JS.ceil (amount * 0.1)) 100 /\
     health r' = health r /\ ki r' = ki r /\
     maxHealth r' = maxHealth r /\ maxKi r' = maxKi r /\
     maxStamina r' = maxStamina r).
Proof.
  intros Hpos.
  assert (Hle : JS.leb amount 0 = false) by (apply leb_false; exact Hpos).
  pose proof (ceil_tenth_positive amount Hpos) as Hceil.
  assert (Hcle : JS.leb (JS.ceil (amount * 0.1)) 0 = false)
    by (apply leb_false; exact Hceil).
  repeat split.
  - intros Hlt. unfold useKi. rewrite Hle.
    apply ltb_true in Hlt. now rewrite Hlt.
  - intros Hlt. unfold useStamina. rewrite Hle.
    apply ltb_true in Hlt. now rewrite Hlt.
  - intros Hr Hge. unfold useKi. rewrite Hle.
    apply ltb_false in Hge. rewrite Hge.
    eexists. split; [reflexivity |].
    apply ltb_false in Hge. destruct r as [mh mk ms h k st f].
    unfold inBounds in Hr.
    cbn [_modifyResource fst snd get set health ki stamina fatigue
         maxHealth maxKi maxStamina] in *.
    split; [js_clamp; lra |]. repeat split.
  - intros Hr Hge. unfold useStamina. rewrite Hle.
    apply ltb_false in Hge. rewrite Hge.
    eexists. split; [reflexivity |].
    apply ltb_false in Hge. destruct r as [mh mk ms h k st f].
    unfold inBounds in Hr. unfold addFatigue.
    cbn [_modifyResource fst snd get set health ki stamina fatigue
         maxHealth maxKi maxStamina] in *.
    rewrite Hcle.
    cbn [_modifyResource fst snd get set health ki stamina fatigue
         maxHealth maxKi maxStamina] in *.
    split; [js_clamp; lra |].
    split; [js_clamp; lra |]. repeat split.
Qed.

Lemma use_pool_policy_witness :
  useKi 20 (mk 160 100 125 160 10 125 0)
    = (JS.VBool false, mk 160 100 125 160 10 125 0)
  /\ exists r',
       useStamina 45 (mk 160 100 125 160 10 125 0) = (JS.VBool true, r')
       /\ stamina r' == 80 /\ fatigue r' == 5.
Proof.
  pose proof (use_pool_policy (mk 160 100 125 160 10 125 0) 20) as H20.
  pose proof (use_pool_policy (mk 160 100 125 160 10 125 0) 45) as H45.
  split.
  - apply H20; reflexivity.
  - destruct H45 as (_ & _ & _ & H); [reflexivity |].
    destruct H as (r' & Hu & Hs & Hf & _).
    + unfold inBounds. cbn. repeat split; discriminate.
    + cbn. discriminate.
    + exists r'. split; [exact Hu |]. split.
      * rewrite Hs. reflexivity.
      * rewrite Hf. reflexivity.
Defined.

End PoolSpending.

(** ** Damage application *)

Section DamageApplication.

Import Character.





(** After a recompute the stored resistances are within their caps, so the
    resistance read by [takeDamage] is at most 1. *)
Lemma resistances_capped s x key :
  Resistances.getResistance key (Resistances.updateAll s x) <= 0.90.
Proof.
  unfold Resistances.getResistance, Resistances.updateAll.
  repeat match goal with
         | |- context [if ?b then _ else _] => destruct b
         end;
    cbn [Resistances._physicalResist Resistances._energyResist
         Resistances._statusResist Resistances.calculateStatusResistance
         Resistances.calculateEnergyResistance
         Resistances.calculatePhysicalResistance];
    try (js_clamp; lra).
Qed.

(** The integration test of the source: VIT 100 gives a physical
    resistance of 0.45 = 9/20 and 610 health; 50 physical damage becomes
    round(27.5) = 28. *)
Example takeDamage_test_character :
  let cfg :=
    Character.mkConfig None
      (Some (BaseStats.mkConfig (Some 100) (Some 100) (Some 100) (Some 50)
               (Some 100) (Some 10) (Some 10) (Some 10) (Some 10)))
      (Some "TestCharacter"%string) in
  option_map
    (fun w : Character.Character * gmap JS.ref BaseStats.CharacterBaseStats =>
       (Qred (Resistances._physicalResist (_resistances (fst w))),
        Resources.health (_resources (fst w)),
        Resources.health
          (_resources
             (fst (takeDamage 50 (Some "physicalResist"%string) (fst w) (snd w))))))
    (Character.new cfg ∅)
  = Some (9 # 20, 610, 582).
Proof. vm_compute. reflexivity. Qed.

End DamageApplication.

(** ** Experience and level-ups *)

Section LevelUps.

Import Attributes.

(** One pass of the loop is the level-up step of the specification. *)
Lemma cascadeBody_levelUpStep a : cascadeBody a = Spec.levelUpStep a.
Proof. reflexivity. Qed.


(** What the loop computes, for every amount of fuel: a result is the
    [n]-fold step for the [n] whose earlier iterates all pass the guard and
    whose [n]-th iterate fails it; without a result every iterate up to the
    fuel passes the guard. *)
Lemma cascade_iterates fuel a :
  match cascade fuel a with
  | Some a' =>
      exists n, (n <= fuel)%nat /\ a' = Nat.iter n cascadeBody a /\
        (forall k, (k < n)%nat -> cascadeGuard (Nat.iter k cascadeBody a) = true) /\
        cascadeGuard a' = false
  | None =>
      forall k, (k <= fuel)%nat -> cascadeGuard (Nat.iter k cascadeBody a) = true
  end.
Proof.
  revert a. induction fuel as [| fuel IH]; intros a; simpl.
  - destruct (cascadeGuard a) eqn:E.
    + intros k Hk. assert (k = 0%nat) as -> by lia. exact E.
    + exists 0%nat. repeat split; [lia | intros k Hk; lia | exact E].
  - destruct (cascadeGuard a) eqn:E.
    + specialize (IH (cascadeBody a)).
      destruct (cascade fuel (cascadeBody a)) as [a' |].
      * destruct IH as (n & Hn & Ha' & Hk & Hg).
        exists (S n). rewrite Nat.iter_succ_r.
        repeat split; [lia | exact Ha' | | exact Hg].
        intros [| k] Hlt; [exact E |].
        rewrite Nat.iter_succ_r. apply Hk. lia.
      * intros [| k] Hle; [exact E |].
        rewrite Nat.iter_succ_r. apply IH. lia.
    + exists 0%nat. repeat split; [lia | intros k Hk; lia | exact E].
Qed.




Example addXP_two_levels :
  addXP 5 350 (new emptyConfig)
  = Some (mk 3 130 144 "Human" 0.1 0.1 "Neutral" 10 2 None).
Proof. vm_compute. reflexivity. Qed.

End LevelUps.

(** ** Termination of the level-up cascade *)

Section CascadeTermination.

Import Attributes.




End CascadeTermination.

(** With a threshold between 0 and 1 the guarantee is lost: from XP 1 and
    threshold 1/2 the next threshold is floor(0.6) = 0 and the loop never
    ends, whatever the fuel. *)
Lemma cascade_zero_threshold fuel a :
  Attributes.xpToNextLevel a == 0 -> 0 <= Attributes.xp a ->
  Attributes.cascade fuel a = None.
Proof.
  revert a. induction fuel as [| fuel IH]; intros a Ht Hx; simpl;
    assert (E : Attributes.cascadeGuard a = true)
      by (apply geb_true; rewrite Ht; exact Hx);
    rewrite E; [reflexivity |].
  apply IH.
  - cbn [Attributes.cascadeBody Attributes.levelUp Attributes.set_xp
         Attributes.xpToNextLevel].
    unfold JS.floor.
    assert (Hf : Qfloor (Attributes.xpToNextLevel a * 1.2) = Qfloor 0)
      by (apply Qfloor_comp; rewrite Ht; reflexivity).
    rewrite Hf. reflexivity.
  - cbn [Attributes.cascadeBody Attributes.levelUp Attributes.set_xp
         Attributes.xp Attributes.xpToNextLevel].
    rewrite Ht. lra.
Qed.

Example addXP_diverges_below_one fuel :
  Attributes.addXP (S fuel) 1
    (Attributes.new
       (Attributes.mkConfig None None (Some 0.5) None None None None None
          None None))
  = None.
Proof.
  unfold Attributes.addXP. simpl.
  apply cascade_zero_threshold; [reflexivity | cbn; discriminate].
Qed.

(** ** Stat-point allocation *)

Section Allocation.

Import Attributes.

Lemma lookupKey_name statKey k :
  BaseStats.lookupKey statKey = Some k -> BaseStats.StatKeys k = statKey.
Proof.
  unfold BaseStats.lookupKey. intros H. apply find_some in H.
  destruct H as [_ H]. now apply String.eqb_eq in H.
Qed.

Lemma lookupKey_StatKeys k : BaseStats.lookupKey (BaseStats.StatKeys k) = Some k.
Proof. destruct k; reflexivity. Qed.

Lemma get_set_same k v s : BaseStats.get k (BaseStats.set k v s) = v.
Proof. destruct k; reflexivity. Qed.

Lemma get_set_other k k' v s :
  k' <> k -> BaseStats.get k' (BaseStats.set k v s) = BaseStats.get k' s.
Proof. destruct k, k'; intros H; try reflexivity; congruence. Qed.

(** [increaseStat(key, 1)] on a recognized key. *)
Lemma increaseStat_one statKey k s :
  BaseStats.lookupKey statKey = Some k ->
  BaseStats.increaseStat statKey 1 s
  = (true, BaseStats.set k (BaseStats.get k s + 1) s).
Proof. intros H. unfold BaseStats.increaseStat. now rewrite H. Qed.

(** C8. [allocateStatPoint(key)] returns false and changes neither the
    attributes nor the store of base stats when unallocatedStatPoints <= 0,
    when no BaseStats is linked, or when the key is not one of the nine
    stat keys; whenever it returns false nothing has changed.  When it
    returns true, the linked BaseStats object exists, the key names one of
    the nine stats, unallocatedStatPoints has dropped by exactly 1 with the
    other attributes as before, the named stat of the linked object has
    grown by exactly 1 with its other stats as before, and every other
    object of the store is as before.  It does return true when points
    are left, a live BaseStats object is linked and the key is
    recognized. *)
Theorem allocateStatPoint_policy (statKey : string) (a : CharacterAttributes)
    (h : gmap JS.ref BaseStats.CharacterBaseStats) :
  let result := allocateStatPoint statKey a h in
  let ok := fst (fst result) in
  let a' := snd (fst result) in
  let h' := snd result in
  (unallocatedStatPoints a <= 0 \/ baseStats a = None \/
   BaseStats.lookupKey statKey = None -> result = (false, a, h)) /\
  (ok = false -> a' = a /\ h' = h) /\
  (ok = true ->
   exists r s k,
     baseStats a = Some r /\ h !! r = Some s /\
     BaseStats.lookupKey statKey = Some k /\
     BaseStats.StatKeys k = statKey /\
     0 < unallocatedStatPoints a /\
     a' = set_unallocatedStatPoints (unallocatedStatPoints a - 1) a /\
     unallocatedStatPoints a' = unallocatedStatPoints a - 1 /\
     exists s',
       h' !! r = Some s' /\
       BaseStats.get k s' = BaseStats.get k s + 1 /\
       BaseStats.getStat statKey s' = BaseStats.getStat statKey s + 1 /\
       (forall k', k' <> k -> BaseStats.get k' s' = BaseStats.get k' s) /\
       (forall r', r' <> r -> h' !! r' = h !! r')) /\
  (forall r s k,
     0 < unallocatedStatPoints a -> baseStats a = Some r ->
     h !! r = Some s -> BaseStats.lookupKey statKey = Some k -> ok = true).
Proof.
  intros result ok a' h'. subst ok a' h' result.
  unfold allocateStatPoint, BaseStats.validKey.
  destruct (JS.leb (unallocatedStatPoints a) 0) eqn:Epts;
    [apply leb_true in Epts | apply leb_false in Epts].
  { cbn [fst snd]. repeat split; try discriminate.
    intros r s k Hpos. lra. }
  destruct (baseStats a) as [r |] eqn:Eref.
  2: { cbn [fst snd]. repeat split; discriminate. }
  destruct (BaseStats.lookupKey statKey) as [k |] eqn:Ekey; cbn [negb].
  2: { cbn [fst snd]. repeat split; discriminate. }
  destruct (h !! r) as [s |] eqn:Eobj.
  2: { cbn [fst snd]. repeat split; try discriminate.
       intros r0 s0 k0 _ [= <-] Hs _. congruence. }
  rewrite (increaseStat_one statKey k s Ekey). cbn [fst snd].
  split; [| split; [| split]].
  - intros [H | [H | H]]; [lra | discriminate | discriminate].
  - discriminate.
  - intros _. exists r, s, k.
    repeat split; try reflexivity; try assumption.
    + now apply lookupKey_name.
    + exists (BaseStats.set k (BaseStats.get k s + 1) s).
      split; [apply lookup_insert_eq |].
      split; [apply get_set_same |].
      split.
      * unfold BaseStats.getStat. rewrite Ekey. apply get_set_same.
      * split; [intros k' Hne; now apply get_set_other |].
        intros r' Hne. now apply lookup_insert_ne.
  - reflexivity.
Qed.

(** With 0 unallocated points the call fails and the base stats stay. *)
Example allocateStatPoint_no_points :
  let s := BaseStats.new BaseStats.emptyConfig in
  let a := new (mkConfig None None None None None None None None None
                  (Some 0%nat)) in
  allocateStatPoint "str" a {[ 0%nat := s ]} = (false, a, {[ 0%nat := s ]}).
Proof. reflexivity. Qed.

Lemma allocateStatPoint_policy_witness :
  let s := BaseStats.new BaseStats.emptyConfig in
  let a := new (mkConfig None None None None None None (Some 5) None None
                  (Some 0%nat)) in
  fst (fst (allocateStatPoint "vit" a {[ 0%nat := s ]})) = true.
Proof.
  intros s a.
  apply (allocateStatPoint_policy "vit" a {[ 0%nat := s ]})
    with (r := 0%nat) (s := s) (k := BaseStats.VIT).
  - reflexivity.
  - reflexivity.
  - apply lookup_singleton_eq.
  - reflexivity.
Defined.

End Allocation.

(** ** Construction *)

Section Construction.

(** C10. Right after construction of the resources, for every attributes
    and base-stats object, the current health, ki and stamina equal the
    maxima just computed from them and fatigue is 0; the constructor of
    [Character] always succeeds, for every configuration and store, and its
    resources are in that state for its own attributes and its new
    base-stats object, which the attributes are linked to. *)
Theorem new_resources_at_maximum :
  (forall (a : Attributes.CharacterAttributes)
          (s : BaseStats.CharacterBaseStats),
     exists r,
       Resources.new (Some a) (Some s) = Some r /\
       Resources.maxHealth r
         = JS.floor (BaseStats.hp s + Attributes.level a * 10
                     + BaseStats.vit s * 5) /\
       Resources.maxKi r
         = JS.floor (BaseStats.ki s + Attributes.level a * 5
                     + BaseStats.wis s * 3 + BaseStats.aura s * 2) /\
       Resources.maxStamina r
         = JS.floor (BaseStats.sta s + Attributes.level a * 5
                     + BaseStats.vit s * 2 + BaseStats.agi s * 3) /\
       Resources.health r = Resources.maxHealth r /\
       Resources.ki r = Resources.maxKi r /\
       Resources.stamina r = Resources.maxStamina r /\
       Resources.fatigue r = 0) /\
  (forall (cfg : Character.Config)
          (h : gmap JS.ref BaseStats.CharacterBaseStats),
     exists ch h',
       Character.new cfg h = Some (ch, h') /\
       h' !! Character._baseStats ch
         = Some (BaseStats.new
                   (default BaseStats.emptyConfig (Character.baseStatsConfig cfg))) /\
       Attributes.baseStats (Character._attributes ch)
         = Some (Character._baseStats ch) /\
       Resources.new (Some (Character._attributes ch))
                     (h' !! Character._baseStats ch)
         = Some (Character._resources ch) /\
       Resources.health (Character._resources ch)
         = Resources.maxHealth (Character._resources ch) /\
       Resources.ki (Character._resources ch)
         = Resources.maxKi (Character._resources ch) /\
       Resources.stamina (Character._resources ch)
         = Resources.maxStamina (Character._resources ch) /\
       Resources.fatigue (Character._resources ch) = 0).
Proof.
  split.
  - intros a s. eexists. split; [reflexivity |]. repeat split.
  - intros cfg h. unfold Character.new. cbn [mbind option_bind].
    do 2 eexists. split; [reflexivity |].
    cbn [Character._baseStats Character._attributes Character._resources].
    rewrite lookup_insert_eq. repeat split.
Qed.

(** The default character: 100 + 10 + 50 health, 50 + 5 + 30 + 20 ki,
    75 + 5 + 20 + 30 stamina. *)
Example new_default_resources :
  Resources.new (Some (Attributes.new Attributes.emptyConfig))
                (Some (BaseStats.new BaseStats.emptyConfig))
  = Some (Resources.mk 160 105 130 160 105 130 0).
Proof. vm_compute. reflexivity. Qed.

(** A state with non-negative maxima and full pools is within bounds; so
    is every constructed state whose maxima are non-negative. *)
Lemma new_inBounds a s r :
  Resources.new (Some a) (Some s) = Some r ->
  0 <= Resources.maxHealth r -> 0 <= Resources.maxKi r ->
  0 <= Resources.maxStamina r -> Resources.inBounds r.
Proof.
  intros [= <-]. unfold Resources.inBounds.
  cbn [Resources.setToMax Resources.calculateMaxValues Resources.health
       Resources.ki Resources.stamina Resources.fatigue Resources.maxHealth
       Resources.maxKi Resources.maxStamina].
  intros H1 H2 H3. repeat split; lra.
Qed.

End Construction.

(** ** Potential and its cap *)

Section Potential.

Import Attributes.

(** The invariant of the data model. *)
Lemma increasePotential_capped amount a :
  potential (increasePotential amount a) <= potentialCap (increasePotential amount a).
Proof.
  unfold increasePotential. cbn [set_potential potential potentialCap].
  js_clamp; lra.
Qed.

(** [levelUp], [useSkillPoint] and the loop of [addXP] leave potential and
    cap alone; so does [allocateStatPoint]. *)
Lemma levelUp_potential a :
  potential (levelUp a) = potential a /\ potentialCap (levelUp a) = potentialCap a.
Proof. split; reflexivity. Qed.

Lemma useSkillPoint_potential skillId a :
  potential (snd (useSkillPoint skillId a)) = potential a /\
  potentialCap (snd (useSkillPoint skillId a)) = potentialCap a.
Proof. unfold useSkillPoint. destruct (JS.gtb _ _); split; reflexivity. Qed.

Lemma cascade_potential fuel a a' :
  cascade fuel a = Some a' ->
  potential a' = potential a /\ potentialCap a' = potentialCap a.
Proof.
  revert a. induction fuel as [| fuel IH]; intros a; simpl;
    destruct (cascadeGuard a); try discriminate;
    try (intros [= <-]; split; reflexivity).
  intros H. apply IH in H. exact H.
Qed.

Lemma allocateStatPoint_potential statKey a h :
  potential (snd (fst (allocateStatPoint statKey a h))) = potential a /\
  potentialCap (snd (fst (allocateStatPoint statKey a h))) = potentialCap a.
Proof.
  unfold allocateStatPoint.
  repeat match goal with
         | |- context [if ?b then _ else _] => destruct b
         | |- context [match ?x with Some _ => _ | None => _ end] => destruct x
         | |- context [let '(_, _) := ?x in _] => destruct x
         end; split; reflexivity.
Qed.

(** Without [potentialCap] in the configuration the cap is the potential. *)
Lemma new_default_cap cfg :
  c_potentialCap cfg = None ->
  potential (new cfg) <= potentialCap (new cfg).
Proof.
  intros H. unfold new. cbn [potential potentialCap]. rewrite H.
  cbn [default]. lra.
Qed.

(** C9 at the configuration { potential: 0.9, potentialCap: 0.5 }: the
    constructor stores both values as they are, so the constructed state
    has a potential above its cap. *)
Theorem new_potential_above_cap :
  let a := new (mkConfig None None None None (Some 0.9) None None None
                  (Some 0.5) None) in
  potential a = 0.9 /\ potentialCap a = 0.5 /\ potentialCap a < potential a.
Proof. cbn. repeat split. Qed.

End Potential.

(** ** Recomputing the maxima *)

Section Recompute.

Import Resources.

(** [handleStatChange] recomputes the maxima and caps the current values at
    them; it never raises a current value. *)
Lemma handleStatChange_caps a s r :
  let r' := handleStatChange a s r in
  health r' == Qmin (health r) (maxHealth r') /\
  ki r' == Qmin (ki r) (maxKi r') /\
  stamina r' == Qmin (stamina r) (maxStamina r') /\
  fatigue r' = fatigue r /\
  maxHealth r' = maxHealth (calculateMaxValues a s r) /\
  maxKi r' = maxKi (calculateMaxValues a s r) /\
  maxStamina r' = maxStamina (calculateMaxValues a s r).
Proof. cbv zeta. unfold handleStatChange. repeat split; reflexivity. Qed.

(** With non-negative new maxima the pool bounds survive the recompute,
    so they hold in every state a character reaches from a construction
    with non-negative maxima. *)
Lemma handleStatChange_inBounds a s r :
  inBounds r ->
  0 <= maxHealth (calculateMaxValues a s r) ->
  0 <= maxKi (calculateMaxValues a s r) ->
  0 <= maxStamina (calculateMaxValues a s r) ->
  inBounds (handleStatChange a s r).
Proof.
  intros Hr H1 H2 H3.
  destruct (handleStatChange_caps a s r) as (Hh & Hk & Hs & Hf & Hmh & Hmk & Hms).
  unfold inBounds in *. rewrite Hh, Hk, Hs, Hf, Hmh, Hmk, Hms.
  js_clamp; repeat split; lra.
Qed.

End Recompute.

(** * Further properties of the components *)

(** ** Base stats: reading and writing by key *)

Section StatAccess.

Import BaseStats.

Lemma validKey_lookup statKey :
  validKey statKey = true <-> exists k, lookupKey statKey = Some k.
Proof.
  unfold validKey. destruct (lookupKey statKey) as [k |]; split.
  - intros _. now exists k.
  - reflexivity.
  - discriminate.
  - intros [k H]. discriminate.
Qed.

(** [increaseStat] and [getStat]: a call with an unrecognized key or an
    amount <= 0 returns false and leaves the object as it is; a call with a
    recognized key and a positive amount returns true, after which
    [getStat] of that key has grown by the amount and [getStat] of every
    other key string is as before.  [getStat] of an unrecognized key
    is 0. *)
Theorem increaseStat_getStat (statKey : string) (amount : JS.number)
    (s : CharacterBaseStats) :
  (validKey statKey = false \/ amount <= 0 ->
   increaseStat statKey amount s = (false, s)) /\
  (validKey statKey = true -> 0 < amount ->
   fst (increaseStat statKey amount s) = true /\
   getStat statKey (snd (increaseStat statKey amount s))
     = getStat statKey s + amount /\
   forall key', key' <> statKey ->
     getStat key' (snd (increaseStat statKey amount s)) = getStat key' s) /\
  (forall key, validKey key = false -> getStat key s = 0).
Proof.
  unfold increaseStat, validKey, getStat. repeat split.
  - destruct (lookupKey statKey) as [k |]; [| reflexivity].
    intros [H | H]; [discriminate |].
    apply leb_true in H. now rewrite H.
  - destruct (lookupKey statKey); [| discriminate].
    apply leb_false in H0. now rewrite H0.
  - destruct (lookupKey statKey) as [k |]; [| discriminate].
    apply leb_false in H0. rewrite H0. cbn [snd]. apply get_set_same.
  - intros key' Hne.
    destruct (lookupKey statKey) as [k |] eqn:Ek; [| discriminate].
    apply leb_false in H0. rewrite H0. cbn [snd].
    destruct (lookupKey key') as [k' |] eqn:Ek'; [| reflexivity].
    apply get_set_other. intros ->.
    apply lookupKey_name in Ek, Ek'. congruence.
  - intros key H. now destruct (lookupKey key).
Qed.

Lemma increaseStat_getStat_witness :
  getStat "str" (snd (increaseStat "str" 3 (new emptyConfig))) = 10 + 3
  /\ getStat "agi" (snd (increaseStat "str" 3 (new emptyConfig))) = 10.
Proof.
  destruct (increaseStat_getStat "str" 3 (new emptyConfig)) as (_ & H & _).
  destruct H as (_ & Hs & Ho); [reflexivity | reflexivity |].
  split; [exact Hs | now apply Ho].
Defined.

Lemma setStat1_writes k n s :
  0 <= n -> setStat1 s (StatKeys k, JS.ANum n) = set k n s.
Proof.
  intros H. unfold setStat1. rewrite lookupKey_StatKeys.
  apply geb_true in H. now rewrite H.
Qed.

Lemma setStat1_get k entry s :
  get k (setStat1 s entry) = get k s \/
  exists n, entry = (StatKeys k, JS.ANum n) /\ 0 <= n /\
            get k (setStat1 s entry) = n.
Proof.
  destruct entry as [key [n |]]; unfold setStat1;
    destruct (lookupKey key) as [k' |] eqn:Ek; try (left; reflexivity).
  destruct (JS.geb n 0) eqn:En; [| left; reflexivity].
  apply geb_true in En. apply lookupKey_name in Ek. subst key.
  destruct k, k'; try (left; reflexivity);
    right; exists n; repeat split; assumption.
Qed.

Lemma setStat1_skips k entry s :
  ~ writes k entry -> get k (setStat1 s entry) = get k s.
Proof.
  intros Hn. destruct (setStat1_get k entry s) as [H | (n & He & Hn0 & _)].
  - exact H.
  - exfalso. apply Hn. now exists n.
Qed.

(** [setStats] writes exactly the entries with a recognized key and a
    number >= 0: it keeps all stats non-negative; a stat none of whose
    entries is written is as before; and a stat with a written entry ends
    as the number of the last such entry. *)
Theorem setStats_valid_entries (statsObject : list (string * JS.any))
    (s : CharacterBaseStats) :
  (allNonneg s -> allNonneg (setStats statsObject s)) /\
  (forall k, (forall entry, In entry statsObject -> ~ writes k entry) ->
     get k (setStats statsObject s) = get k s) /\
  (forall k n before after,
     statsObject = before ++ (StatKeys k, JS.ANum n) :: after -> 0 <= n ->
     (forall entry, In entry after -> ~ writes k entry) ->
     get k (setStats statsObject s) = n).
Proof.
  assert (Hskip : forall o s' k,
             (forall entry, In entry o -> ~ writes k entry) ->
             get k (setStats o s') = get k s').
  { induction o as [| e o IH]; intros s' k Ho; [reflexivity |].
    cbn [setStats fold_left]. change (fold_left setStat1 o) with (setStats o).
    rewrite IH by (intros e' He'; apply Ho; now right).
    apply setStat1_skips, Ho. now left. }
  split; [| split].
  - revert s. induction statsObject as [| e o IH]; intros s Hs; [exact Hs |].
    cbn [setStats fold_left]. apply IH. intros k.
    destruct (setStat1_get k e s) as [-> | (n & _ & Hn & ->)];
      [apply Hs | exact Hn].
  - intros k. apply Hskip.
  - intros k n before after -> Hn Hafter.
    unfold setStats. rewrite fold_left_app. cbn [fold_left].
    change (fold_left setStat1 after) with (setStats after).
    rewrite Hskip by exact Hafter.
    rewrite setStat1_writes by exact Hn. apply get_set_same.
Qed.

Lemma setStats_valid_entries_witness :
  get STR (setStats [("str"%string, JS.ANum 18); ("luck"%string, JS.ANum 7);
                     ("str"%string, JS.ANum (-4)); ("tec"%string, JS.AOther)]
             (new emptyConfig)) = 18
  /\ get TEC (setStats [("str"%string, JS.ANum 18); ("luck"%string, JS.ANum 7);
                        ("str"%string, JS.ANum (-4)); ("tec"%string, JS.AOther)]
                (new emptyConfig)) = 10.
Proof.
  destruct (setStats_valid_entries
              [("str"%string, JS.ANum 18); ("luck"%string, JS.ANum 7);
               ("str"%string, JS.ANum (-4)); ("tec"%string, JS.AOther)]
              (new emptyConfig)) as (_ & Hskip & Hlast).
  split.
  - apply (Hlast STR 18 []
             [("luck"%string, JS.ANum 7); ("str"%string, JS.ANum (-4));
              ("tec"%string, JS.AOther)]).
    + reflexivity.
    + cbn. discriminate.
    + intros entry [<- | [<- | [<- | []]]] (n & He & Hn);
        inversion He; subst; apply Hn; reflexivity.
  - apply (Hskip TEC).
    intros entry [<- | [<- | [<- | [<- | []]]]] (n & He & Hn);
      inversion He.
Defined.

(** Feeding the object of [getAllStats] back to [setStats] restores the
    stats it was taken from, whatever the object they are written to,
    provided they are non-negative. *)
Theorem setStats_getAllStats (s s' : CharacterBaseStats) :
  allNonneg s ->
  setStats (map (fun e => (fst e, JS.ANum (snd e))) (getAllStats s)) s' = s.
Proof.
  intros Hs. unfold getAllStats, keys, setStats.
  cbn [map fold_left fst snd].
  rewrite !setStat1_writes by apply Hs.
  destruct s, s'. reflexivity.
Qed.

Lemma setStats_getAllStats_witness :
  setStats (map (fun e => (fst e, JS.ANum (snd e)))
              (getAllStats (new emptyConfig)))
           (mk 1 2 3 4 5 6 7 8 9)
  = new emptyConfig.
Proof.
  apply (setStats_getAllStats (new emptyConfig) (mk 1 2 3 4 5 6 7 8 9)).
  intros []; cbn; discriminate.
Defined.

End StatAccess.

(** ** Attributes: construction, experience and point pools *)

Section AttributesFacts.

Import Attributes.

Lemma includes_In l x : includes l x = true <-> In x l.
Proof.
  unfold includes. rewrite existsb_exists. split.
  - intros (y & Hy & E). apply String.eqb_eq in E. now subst.
  - intros H. exists x. split; [exact H | apply String.eqb_refl].
Qed.

(** The constructor always yields a race of the [Race] table and an
    alignment of the [Alignment] table: a supplied value of the table is
    kept, any other supplied value is replaced by Human, respectively
    Neutral, which are also the defaults. *)
Theorem new_validates_race_alignment (cfg : Config) :
  In (race (new cfg)) Races /\
  In (alignment (new cfg)) Alignments /\
  (forall r, c_race cfg = Some r ->
     (In r Races -> race (new cfg) = r) /\
     (~ In r Races -> race (new cfg) = Race_HUMAN)) /\
  (forall al, c_alignment cfg = Some al ->
     (In al Alignments -> alignment (new cfg) = al) /\
     (~ In al Alignments -> alignment (new cfg) = Alignment_NEUTRAL)) /\
  (c_race cfg = None -> race (new cfg) = Race_HUMAN) /\
  (c_alignment cfg = None -> alignment (new cfg) = Alignment_NEUTRAL).
Proof.
  unfold new. cbn [race alignment].
  split; [| split; [| split; [| split; [| split]]]].
  - destruct (includes Races _) eqn:E;
      [now apply includes_In | cbn; tauto].
  - destruct (includes Alignments _) eqn:E;
      [now apply includes_In | cbn; tauto].
  - intros r ->. change (default Race_HUMAN (Some r)) with r.
    split; intros H.
    + apply includes_In in H. now rewrite H.
    + destruct (includes Races r) eqn:E; [| reflexivity].
      apply includes_In in E. contradiction.
  - intros al ->. change (default Alignment_NEUTRAL (Some al)) with al.
    split; intros H.
    + apply includes_In in H. now rewrite H.
    + destruct (includes Alignments al) eqn:E; [| reflexivity].
      apply includes_In in E. contradiction.
  - intros ->. reflexivity.
  - intros ->. reflexivity.
Qed.

Lemma new_validates_race_alignment_witness :
  race (new (mkConfig None None None (Some "Klingon"%string) None
               (Some "Evil"%string) None None None None)) = "Human"%string
  /\ alignment (new (mkConfig None None None (Some "Klingon"%string) None
                       (Some "Evil"%string) None None None None))
     = "Evil"%string.
Proof.
  destruct (new_validates_race_alignment
              (mkConfig None None None (Some "Klingon"%string) None
                 (Some "Evil"%string) None None None None))
    as (_ & _ & Hr & Ha & _).
  split.
  - apply (Hr "Klingon"%string); [reflexivity |].
    cbn. intros [H | [H | [H | [H | [H | [H | []]]]]]]; discriminate.
  - apply (Ha "Evil"%string); [reflexivity |]. cbn. tauto.
Defined.

(** What [n] passes of the loop of [addXP] add up to. *)
Lemma cascadeBody_iter n a :
  let a' := Nat.iter n cascadeBody a in
  level a' == level a + inject_Z (Z.of_nat n) /\
  unallocatedStatPoints a'
    == unallocatedStatPoints a + 5 * inject_Z (Z.of_nat n) /\
  skillPoints a' == skillPoints a + inject_Z (Z.of_nat n) /\
  race a' = race a /\ alignment a' = alignment a /\
  potential a' = potential a /\ potentialCap a' = potentialCap a /\
  baseStats a' = baseStats a.
Proof.
  induction n as [| n IH].
  - cbv zeta. change (Nat.iter 0 cascadeBody a) with a.
    change (inject_Z (Z.of_nat 0)) with 0. repeat split; lra.
  - cbv zeta in *. rewrite Nat.iter_succ.
    destruct IH as (Hl & Hu & Hs & Hr & Hal & Hp & Hc & Hb).
    rewrite Nat2Z.inj_succ. unfold Z.succ. rewrite inject_Z_plus.
    cbn [cascadeBody levelUp set_xp level unallocatedStatPoints skillPoints
         race alignment potential potentialCap baseStats].
    change (inject_Z 1) with 1.
    repeat split; try assumption; lra.
Qed.

Lemma cascadeBody_iter_xp n a :
  1 <= xpToNextLevel a ->
  xp (Nat.iter n cascadeBody a) <= xp a - inject_Z (Z.of_nat n) /\
  1 <= xpToNextLevel (Nat.iter n cascadeBody a).
Proof.
  intros H1. induction n as [| n [IHx IHt]].
  - change (Nat.iter 0 cascadeBody a) with a.
    change (inject_Z (Z.of_nat 0)) with 0. split; [lra | exact H1].
  - rewrite Nat.iter_succ, Nat2Z.inj_succ. unfold Z.succ.
    rewrite inject_Z_plus. change (inject_Z 1) with 1. split.
    + cbn [cascadeBody levelUp set_xp xp]. lra.
    + now apply cascadeBody_threshold.
Qed.

(** The bookkeeping of [addXP]: when it returns, some number [n] of
    level-ups has fired; the level and the skill points have grown by [n]
    and the unallocated stat points by 5 [n]; race, alignment, potential,
    cap and the linked base stats are untouched.  A grant that leaves the
    XP below the threshold fires none and changes the XP only.  With a
    threshold of at least 1, the remaining XP is at most the XP after the
    grant minus [n], and the new threshold is at least 1. *)
Theorem addXP_bookkeeping (fuel : nat) (amount : JS.number)
    (a a' : CharacterAttributes) :
  addXP fuel amount a = Some a' ->
  exists n : nat,
    level a' == level a + inject_Z (Z.of_nat n) /\
    unallocatedStatPoints a'
      == unallocatedStatPoints a + 5 * inject_Z (Z.of_nat n) /\
    skillPoints a' == skillPoints a + inject_Z (Z.of_nat n) /\
    race a' = race a /\ alignment a' = alignment a /\
    potential a' = potential a /\ potentialCap a' = potentialCap a /\
    baseStats a' = baseStats a /\
    (xp a + amount < xpToNextLevel a ->
     n = 0%nat /\ a' = set_xp (xp a + amount) a) /\
    (1 <= xpToNextLevel a ->
     xp a' <= xp a + amount - inject_Z (Z.of_nat n) /\
     1 <= xpToNextLevel a').
Proof.
  unfold addXP. intros H.
  set (a0 := set_xp (xp a + amount) a) in *.
  pose proof (cascade_iterates fuel a0) as Hi. rewrite H in Hi.
  destruct Hi as (n & _ & -> & Hk & _).
  exists n.
  destruct (cascadeBody_iter n a0) as (Hl & Hu & Hs & Hr & Hal & Hp & Hc & Hb).
  assert (Hnone : xp a + amount < xpToNextLevel a -> n = 0%nat).
  { intros Hlt. destruct n as [| n]; [reflexivity |].
    specialize (Hk 0%nat (Nat.lt_0_succ n)).
    change (Nat.iter 0 cascadeBody a0) with a0 in Hk.
    apply geb_true in Hk. cbn [a0 set_xp xp xpToNextLevel] in Hk. lra. }
  split; [exact Hl |]. split; [exact Hu |]. split; [exact Hs |].
  split; [exact Hr |]. split; [exact Hal |]. split; [exact Hp |].
  split; [exact Hc |]. split; [exact Hb |]. split.
  - intros Hlt. rewrite (Hnone Hlt). split; reflexivity.
  - intros H1. now apply (cascadeBody_iter_xp n a0).
Qed.

Lemma addXP_bookkeeping_witness :
  exists n : nat,
    level (mk 3 130 144 "Human" 0.1 0.1 "Neutral" 10 2 None)
      == level (new emptyConfig) + inject_Z (Z.of_nat n).
Proof.
  destruct (addXP_bookkeeping 5 350 (new emptyConfig)
              (mk 3 130 144 "Human" 0.1 0.1 "Neutral" 10 2 None))
    as (n & Hl & _).
  - vm_compute. reflexivity.
  - exists n. exact Hl.
Defined.



End AttributesFacts.

(** ** Resources: edge cases, exact effects and round trips *)

Section ResourceEffects.

Import Resources.

(** A call with an amount <= 0 changes nothing, for each of the eight
    mutators; it returns the current value of its pool, which for [useKi]
    and [useStamina] is a number where a call with a positive amount
    returns a boolean. *)
Theorem nonpositive_amount_noop (call : Call) (r : CharacterResources) :
  amountOf call <= 0 ->
  perform call r = r /\
  forall a, a <= 0 ->
    takeDamage a r = (health r, r) /\
    restoreHealth a r = (health r, r) /\
    useKi a r = (JS.VNum (ki r), r) /\
    restoreKi a r = (ki r, r) /\
    useStamina a r = (JS.VNum (stamina r), r) /\
    recoverStamina a r = (stamina r, r) /\
    addFatigue a r = (fatigue r, r) /\
    reduceFatigue a r = (fatigue r, r).
Proof.
  intros H. split.
  - destruct call; cbn [amountOf] in H; apply leb_true in H;
      unfold perform, takeDamage, restoreHealth, useKi, restoreKi,
        useStamina, recoverStamina, addFatigue, reduceFatigue;
      rewrite H; reflexivity.
  - intros a Ha. apply leb_true in Ha.
    unfold takeDamage, restoreHealth, useKi, restoreKi, useStamina,
      recoverStamina, addFatigue, reduceFatigue.
    rewrite Ha. repeat split.
Qed.

Lemma nonpositive_amount_noop_witness :
  perform (CallUseStamina (-5)) (mk 160 100 125 160 10 125 0)
  = mk 160 100 125 160 10 125 0.
Proof.
  apply (nonpositive_amount_noop (CallUseStamina (-5))
           (mk 160 100 125 160 10 125 0)).
  cbn. discriminate.
Defined.

(** The exact effect of the six unconditional mutators on a state within
    the pool bounds, for a positive amount: damage and fatigue reduction
    stop at 0, restoring stops at the maximum (100 for fatigue); the value
    returned is the new value of the pool; an amount of at least the
    current value empties the pool, an amount of at least the missing part
    fills it. *)
Theorem mutator_effects (a : JS.number) (r : CharacterResources) :
  inBounds r -> 0 < a ->
  (health (snd (takeDamage a r)) == Qmax 0 (health r - a) /\
   fst (takeDamage a r) = health (snd (takeDamage a r)) /\
   (health r <= a -> health (snd (takeDamage a r)) == 0)) /\
  (health (snd (restoreHealth a r)) == Qmin (health r + a) (maxHealth r) /\
   fst (restoreHealth a r) = health (snd (restoreHealth a r)) /\
   (maxHealth r - health r <= a ->
    health (snd (restoreHealth a r)) == maxHealth r)) /\
  (ki (snd (restoreKi a r)) == Qmin (ki r + a) (maxKi r) /\
   fst (restoreKi a r) = ki (snd (restoreKi a r)) /\
   (maxKi r - ki r <= a -> ki (snd (restoreKi a r)) == maxKi r)) /\
  (stamina (snd (recoverStamina a r)) == Qmin (stamina r + a) (maxStamina r) /\
   fst (recoverStamina a r) = stamina (snd (recoverStamina a r)) /\
   (maxStamina r - stamina r <= a ->
    stamina (snd (recoverStamina a r)) == maxStamina r)) /\
  (fatigue (snd (addFatigue a r)) == Qmin (fatigue r + a) 100 /\
   fst (addFatigue a r) = fatigue (snd (addFatigue a r)) /\
   (100 - fatigue r <= a -> fatigue (snd (addFatigue a r)) == 100)) /\
  (fatigue (snd (reduceFatigue a r)) == Qmax 0 (fatigue r - a) /\
   fst (reduceFatigue a r) = fatigue (snd (reduceFatigue a r)) /\
   (fatigue r <= a -> fatigue (snd (reduceFatigue a r)) == 0)).
Proof.
  intros Hr Ha. apply leb_false in Ha.
  destruct r as [mh mk ms h k st f]. unfold inBounds in Hr.
  unfold takeDamage, restoreHealth, restoreKi, recoverStamina, addFatigue,
    reduceFatigue, _modifyResource.
  rewrite Ha. apply leb_false in Ha.
  cbn [fst snd get set health ki stamina fatigue maxHealth maxKi maxStamina]
    in *.
  repeat split; try (intros Hover); js_clamp; lra.
Qed.

Lemma mutator_effects_witness :
  health (snd (takeDamage 500 (mk 160 100 125 160 10 125 0))) == 0
  /\ health (snd (restoreHealth 9999 (mk 160 100 125 20 10 125 0))) == 160.
Proof.
  split.
  - apply (mutator_effects 500 (mk 160 100 125 160 10 125 0)).
    + unfold inBounds. cbn. repeat split; discriminate.
    + reflexivity.
    + cbn. discriminate.
  - apply (mutator_effects 9999 (mk 160 100 125 20 10 125 0)).
    + unfold inBounds. cbn. repeat split; discriminate.
    + reflexivity.
    + cbn. discriminate.
Defined.

(** Spending and giving back the same positive amount is a round trip when
    the amount was available: health after [takeDamage] then
    [restoreHealth], ki after [useKi] then [restoreKi], and stamina after
    [useStamina] then [recoverStamina] are what they were, in a state
    within the pool bounds.  (The fatigue added by [useStamina] stays.) *)
Theorem spend_restore_round_trip (a : JS.number) (r : CharacterResources) :
  inBounds r -> 0 < a ->
  (a <= health r ->
   health (snd (restoreHealth a (snd (takeDamage a r)))) == health r) /\
  (a <= ki r ->
   ki (snd (restoreKi a (snd (useKi a r)))) == ki r) /\
  (a <= stamina r ->
   stamina (snd (recoverStamina a (snd (useStamina a r)))) == stamina r /\
   fatigue r <= fatigue (snd (recoverStamina a (snd (useStamina a r))))).
Proof.
  intros Hr Ha.
  pose proof (ceil_tenth_positive a Ha) as Hceil.
  assert (Hc := Hceil). apply leb_false in Hc.
  assert (Ha' := Ha). apply leb_false in Ha'.
  destruct r as [mh mk ms h k st f]. unfold inBounds in Hr.
  unfold takeDamage, restoreHealth, useKi, restoreKi, useStamina,
    recoverStamina, addFatigue, _modifyResource.
  cbn [fst snd get set health ki stamina fatigue maxHealth maxKi maxStamina]
    in *.
  rewrite Ha'.
  split; [intros Hle | split; [intros Hle | intros Hle; split]].
  - cbn [fst snd get set health ki stamina fatigue maxHealth maxKi maxStamina].
    js_clamp; lra.
  - apply ltb_false in Hle. rewrite Hle. apply ltb_false in Hle.
    cbn [fst snd get set health ki stamina fatigue maxHealth maxKi maxStamina].
    js_clamp; lra.
  - apply ltb_false in Hle. rewrite Hle. apply ltb_false in Hle.
    cbn [fst snd get set health ki stamina fatigue maxHealth maxKi maxStamina].
    rewrite Hc. clear Hc Ha'.
    cbn [fst snd get set health ki stamina fatigue maxHealth maxKi maxStamina].
    js_clamp; lra.
  - apply ltb_false in Hle. rewrite Hle. apply ltb_false in Hle.
    cbn [fst snd get set health ki stamina fatigue maxHealth maxKi maxStamina].
    rewrite Hc. clear Hc Ha'.
    cbn [fst snd get set health ki stamina fatigue maxHealth maxKi maxStamina].
    js_clamp; lra.
Qed.

Lemma spend_restore_round_trip_witness :
  ki (snd (restoreKi 30 (snd (useKi 30 (mk 160 100 125 160 70 125 0))))) == 70.
Proof.
  apply (spend_restore_round_trip 30 (mk 160 100 125 160 70 125 0)).
  - unfold inBounds. cbn. repeat split; discriminate.
  - reflexivity.
  - cbn. discriminate.
Defined.




End ResourceEffects.

(** ** Derived stats *)

Section DerivedFacts.

Import DerivedStats.

Lemma floor_nonneg x : 0 <= x -> 0 <= JS.floor x.
Proof.
  intros H. change 0 with (JS.floor (inject_Z 0)) at 1.
  apply floor_mono. exact H.
Qed.

Lemma floor_comp x y : x == y -> JS.floor x = JS.floor y.
Proof. intros H. unfold JS.floor. f_equal. now apply Qfloor_comp. Qed.

Lemma unit_product x y : 0 <= x <= 1 -> 0 <= y <= 1 -> 0 <= x * y <= 1.
Proof.
  intros [Hx0 Hx1] [Hy0 Hy1]. split.
  - now apply Qmult_le_0_compat.
  - assert (H : x * y <= 1 * y) by (apply Qmult_le_compat_r; assumption).
    lra.
Qed.

(** A current value over its maximum, 0 when the maximum is not positive,
    is a fraction between 0 and 1. *)
Lemma percent_unit cur max :
  0 <= cur <= max ->
  0 <= (if JS.gtb max 0 then cur / max else 0) <= 1.
Proof.
  intros [H0 H1]. destruct (JS.gtb max 0) eqn:E; [| lra].
  apply gtb_true in E. split.
  - apply Qle_shift_div_l; lra.
  - apply Qle_shift_div_r; lra.
Qed.

Lemma percent_full cur max :
  cur = max -> 0 < max -> (if JS.gtb max 0 then cur / max else 0) == 1.
Proof.
  intros -> H. apply gtb_true in H. rewrite H. apply gtb_true in H.
  unfold Qdiv. apply Qmult_inv_r. lra.
Qed.

(** The fields of a full recompute. *)
Lemma updateAll_fields a s r d :
  _basePL (updateAll a s r d) = _basePL (calculateBasePL a s d) /\
  _effectivePL (updateAll a s r d)
    = _effectivePL (calculateEffectivePL r (calculateBasePL a s d)) /\
  _movementRange (updateAll a s r d) = JS.floor (3 + BaseStats.agi s / 10) /\
  _turnOrder (updateAll a s r d)
    = JS.floor (BaseStats.agi s + BaseStats.tec s * 0.5).
Proof.
  unfold updateAll, calculateTurnOrder, calculateMovementRange.
  cbn [_basePL _effectivePL _movementRange _turnOrder].
  repeat split.
Qed.

(** A full recompute overwrites every field. *)
Lemma updateAll_overwrites a s r d d' : updateAll a s r d = updateAll a s r d'.
Proof.
  unfold updateAll, calculateTurnOrder, calculateMovementRange,
    calculateEffectivePL, calculateBasePL.
  cbn [_basePL _effectivePL _movementRange _turnOrder]. reflexivity.
Qed.

(** The raw power level of non-negative stats is non-negative. *)
Lemma basePL_nonneg a s d :
  BaseStats.allNonneg s -> 0 <= Attributes.potential a ->
  0 <= _basePL (calculateBasePL a s d).
Proof.
  intros Hs Hp. cbn [calculateBasePL _basePL]. apply floor_nonneg.
  apply Qmult_le_0_compat; [| exact Hp].
  pose proof (Hs BaseStats.STR). pose proof (Hs BaseStats.VIT).
  pose proof (Hs BaseStats.TEC). pose proof (Hs BaseStats.WIS).
  pose proof (Hs BaseStats.AURA). pose proof (Hs BaseStats.AGI).
  cbn [BaseStats.get] in *.
  change (BaseStats.getStat (BaseStats.StatKeys BaseStats.STR) s) with (BaseStats.str s).
  change (BaseStats.getStat (BaseStats.StatKeys BaseStats.VIT) s) with (BaseStats.vit s).
  change (BaseStats.getStat (BaseStats.StatKeys BaseStats.TEC) s) with (BaseStats.tec s).
  change (BaseStats.getStat (BaseStats.StatKeys BaseStats.WIS) s) with (BaseStats.wis s).
  change (BaseStats.getStat (BaseStats.StatKeys BaseStats.AURA) s) with (BaseStats.aura s).
  change (BaseStats.getStat (BaseStats.StatKeys BaseStats.AGI) s) with (BaseStats.agi s).
  lra.
Qed.

(** The resource modifier of the effective power level. *)
Lemma effectivePL_bounds r d :
  Resources.inBounds r -> 0 <= _basePL d ->
  0 <= _effectivePL (calculateEffectivePL r d) <= _basePL d.
Proof.
  intros (Hh & Hk & Hs & Hf) Hb.
  cbn [calculateEffectivePL _effectivePL].
  pose proof (percent_unit _ _ Hh) as Ph.
  pose proof (percent_unit _ _ Hk) as Pk.
  pose proof (percent_unit _ _ Hs) as Ps.
  set (ph := if JS.gtb (Resources.maxHealth r) 0 then _ else _) in *.
  set (pk := if JS.gtb (Resources.maxKi r) 0 then _ else _) in *.
  set (ps := if JS.gtb (Resources.maxStamina r) 0 then _ else _) in *.
  clearbody ph pk ps.
  assert (F1 : 0 <= 1.0 * (0.5 + ph * 0.5) <= 1) by lra.
  assert (F2 : 0 <= 0.8 + pk * 0.2 <= 1) by lra.
  assert (F3 : 0 <= 0.7 + ps * 0.3 <= 1) by lra.
  assert (F4 : 0 <= 1.0 - Resources.fatigue r / 200 <= 1).
  { unfold Qdiv. change (/ 200) with (1 # 200). lra. }
  pose proof (unit_product _ _ (unit_product _ _ (unit_product _ _ F1 F2) F3) F4)
    as [M0 M1].
  set (m := 1.0 * (0.5 + ph * 0.5) * (0.8 + pk * 0.2) * (0.7 + ps * 0.3)
            * (1.0 - Resources.fatigue r / 200)) in *.
  clearbody m.
  assert (Hle : _basePL d * m <= _basePL d).
  { assert (H : _basePL d * m <= _basePL d * 1)
      by (rewrite !(Qmult_comm (_basePL d)); apply Qmult_le_compat_r; assumption).
    lra. }
  pose proof (floor_le (_basePL d * m)) as Hfl.
  split; js_clamp; lra.
Qed.

(** For non-negative stats and potential and resources within the pool
    bounds, a full recompute yields a non-negative base power level, an
    effective power level between 0 and the base power level, a movement
    range of at least 3 and a non-negative turn order.  With every pool at
    its positive maximum and no fatigue, as right after construction, the
    effective power level is the base power level. *)
Theorem derived_stats_bounds (a : Attributes.CharacterAttributes)
    (s : BaseStats.CharacterBaseStats) (r : Resources.CharacterResources)
    (d : CharacterDerivedStats) :
  BaseStats.allNonneg s -> 0 <= Attributes.potential a ->
  Resources.inBounds r ->
  let d' := updateAll a s r d in
  0 <= _basePL d' /\
  0 <= _effectivePL d' /\ _effectivePL d' <= _basePL d' /\
  3 <= _movementRange d' /\
  0 <= _turnOrder d' /\
  (Resources.health r = Resources.maxHealth r ->
   Resources.ki r = Resources.maxKi r ->
   Resources.stamina r = Resources.maxStamina r ->
   0 < Resources.maxHealth r -> 0 < Resources.maxKi r ->
   0 < Resources.maxStamina r -> Resources.fatigue r == 0 ->
   _effectivePL d' == _basePL d').
Proof.
  intros Hs Hp Hr d'.
  pose proof (basePL_nonneg a s d Hs Hp) as Hb.
  pose proof (effectivePL_bounds r (calculateBasePL a s d) Hr Hb) as [He0 He1].
  pose proof (Hs BaseStats.AGI) as Hagi. pose proof (Hs BaseStats.TEC) as Htec.
  cbn [BaseStats.get] in Hagi, Htec.
  destruct (updateAll_fields a s r d) as (Fb & Fe & Fm & Ft).
  fold d' in Fb, Fe, Fm, Ft. rewrite Fb, Fe, Fm, Ft. clear Fb Fe Fm Ft.
  split; [exact Hb |]. split; [exact He0 |]. split; [exact He1 |].
  split; [| split].
  - change 3 with (JS.floor (inject_Z 3)) at 1. apply floor_mono.
    change (inject_Z 3) with 3.
    unfold Qdiv. change (/ 10) with (1 # 10). lra.
  - apply floor_nonneg. lra.
  - intros Eh Ek Est Mh Mk Ms Hf.
    unfold calculateEffectivePL at 1. cbn [_effectivePL].
    pose proof (percent_full _ _ Eh Mh) as Ph.
    pose proof (percent_full _ _ Ek Mk) as Pk.
    pose proof (percent_full _ _ Est Ms) as Ps.
    set (ph := if JS.gtb (Resources.maxHealth r) 0 then _ else _) in *.
    set (pk := if JS.gtb (Resources.maxKi r) 0 then _ else _) in *.
    set (ps := if JS.gtb (Resources.maxStamina r) 0 then _ else _) in *.
    clearbody ph pk ps.
    assert (Hb' : JS.floor (_basePL (calculateBasePL a s d))
                  = _basePL (calculateBasePL a s d)).
    { unfold calculateBasePL. cbn [_basePL]. unfold JS.floor.
      now rewrite Qfloor_Z. }
    set (b := _basePL (calculateBasePL a s d)) in *. clearbody b.
    assert (Hm : b * (1.0 * (0.5 + ph * 0.5) * (0.8 + pk * 0.2)
                      * (0.7 + ps * 0.3) * (1.0 - Resources.fatigue r / 200))
                 == b).
    { rewrite Ph, Pk, Ps, Hf. field. }
    rewrite (floor_comp _ _ Hm), Hb'. unfold JS.max. apply Q.max_r. exact Hb.
Qed.

Lemma derived_stats_bounds_witness :
  _effectivePL (updateAll (Attributes.new Attributes.emptyConfig)
                  (BaseStats.new BaseStats.emptyConfig)
                  (Resources.mk 160 105 130 160 105 130 0) (mk 0 0 0 0))
  == _basePL (updateAll (Attributes.new Attributes.emptyConfig)
                (BaseStats.new BaseStats.emptyConfig)
                (Resources.mk 160 105 130 160 105 130 0) (mk 0 0 0 0)).
Proof.
  apply (derived_stats_bounds (Attributes.new Attributes.emptyConfig)
           (BaseStats.new BaseStats.emptyConfig)
           (Resources.mk 160 105 130 160 105 130 0) (mk 0 0 0 0)).
  - intros []; cbn; discriminate.
  - cbn. discriminate.
  - unfold Resources.inBounds. cbn. repeat split; discriminate.
  - reflexivity.
  - reflexivity.
  - reflexivity.
  - reflexivity.
  - reflexivity.
  - reflexivity.
  - reflexivity.
Defined.

(** The result of a full recompute does not depend on the snapshot it
    overwrites, and the resource-only recompute after a full recompute is
    the full recompute for the new resources: it refreshes the effective
    power level and keeps base power level, movement range and turn
    order. *)
Theorem derived_recompute_composes (a : Attributes.CharacterAttributes)
    (s : BaseStats.CharacterBaseStats) (r r' : Resources.CharacterResources)
    (d d' : CharacterDerivedStats) :
  updateAll a s r d = updateAll a s r d' /\
  handleResourceChange r' (updateAll a s r d) = updateAll a s r' d /\
  handleStatChange a s r (handleStatChange a s r d) = handleStatChange a s r d /\
  _basePL (handleResourceChange r' d) = _basePL d /\
  _movementRange (handleResourceChange r' d) = _movementRange d /\
  _turnOrder (handleResourceChange r' d) = _turnOrder d.
Proof.
  split; [apply updateAll_overwrites |].
  split.
  { unfold handleResourceChange, updateAll, calculateTurnOrder,
      calculateMovementRange, calculateEffectivePL, calculateBasePL.
    cbn [_basePL _effectivePL _movementRange _turnOrder]. reflexivity. }
  split; [apply updateAll_overwrites |].
  unfold handleResourceChange, calculateEffectivePL.
  cbn [_basePL _effectivePL _movementRange _turnOrder]. repeat split.
Qed.

End DerivedFacts.

(** ** Combat stats *)

Section CombatFacts.

Import CombatStats.

(** Read a stat through [getStat] with one of the nine keys. *)
Ltac read_stats s :=
  change (BaseStats.getStat (BaseStats.StatKeys BaseStats.HP) s) with (BaseStats.hp s) in *;
  change (BaseStats.getStat (BaseStats.StatKeys BaseStats.KI) s) with (BaseStats.ki s) in *;
  change (BaseStats.getStat (BaseStats.StatKeys BaseStats.STA) s) with (BaseStats.sta s) in *;
  change (BaseStats.getStat (BaseStats.StatKeys BaseStats.STR) s) with (BaseStats.str s) in *;
  change (BaseStats.getStat (BaseStats.StatKeys BaseStats.VIT) s) with (BaseStats.vit s) in *;
  change (BaseStats.getStat (BaseStats.StatKeys BaseStats.TEC) s) with (BaseStats.tec s) in *;
  change (BaseStats.getStat (BaseStats.StatKeys BaseStats.WIS) s) with (BaseStats.wis s) in *;
  change (BaseStats.getStat (BaseStats.StatKeys BaseStats.AURA) s) with (BaseStats.aura s) in *;
  change (BaseStats.getStat (BaseStats.StatKeys BaseStats.AGI) s) with (BaseStats.agi s) in *.

(** The diminishing-returns curve stat / (stat + k) stays within [0, 1). *)
Lemma curve_unit x k : 0 <= x -> 0 < k -> 0 <= x / (x + k) /\ x / (x + k) < 1.
Proof.
  intros Hx Hk. split.
  - apply Qle_shift_div_l; lra.
  - apply Qlt_shift_div_r; lra.
Qed.




(** The energy multipliers mirror the physical ones: after a recompute
    they are 1.0, e, e, e * 1.5 and e * 2.0 for the energy crit damage
    e = 1.5 + (TEC / (TEC + 200)) * 3.5, and for TEC >= 0 they are ordered
    normal < regular <= super < mega < omega.  The recompute of the energy
    column leaves the physical column as [calculateCritDamage] wrote it,
    and neither writes a threshold, a defense-ignore fraction or a
    knockback flag. *)
Theorem energy_multipliers_ordered (s : BaseStats.CharacterBaseStats)
    (c : CharacterCombatStats) :
  0 <= BaseStats.tec s ->
  let c' := updateAll s c in
  let e := _energyCritDamage c' in
  let t := _critTiers c' in
  e = 1.5 + (BaseStats.tec s / (BaseStats.tec s + 200)) * 3.5 /\
  (energyMultiplier (t_normal t) = 1.0 /\
   energyMultiplier (t_regular t) = e /\
   energyMultiplier (t_super t) = e /\
   energyMultiplier (t_mega t) = e * 1.5 /\
   energyMultiplier (t_omega t) = e * 2.0) /\
  energyOrdered t /\
  Spec.physDerived (_critDamage c') t /\
  (forall n,
     threshold (tier n t) = threshold (tier n (_critTiers c)) /\
     defenseIgnore (tier n t) = defenseIgnore (tier n (_critTiers c)) /\
     guaranteedKnockback (tier n t)
       = guaranteedKnockback (tier n (_critTiers c))).
Proof.
  intros Htec c' e t. subst c' e t.
  split; [reflexivity |]. split; [repeat split |].
  split; [| split; [repeat split | intros []; repeat split]].
  unfold energyOrdered.
  cbn [updateAll calculatePursuit calculateKnockback calculateEnergyCritDamage
       _critTiers t_normal t_regular t_super t_mega t_omega
       set_energyMultiplier energyMultiplier].
  read_stats s.
  destruct (curve_unit (BaseStats.tec s) 200 Htec eq_refl) as [T0 T1].
  set (q := BaseStats.tec s / (BaseStats.tec s + 200)) in *. clearbody q.
  repeat split; lra.
Qed.

Lemma energy_multipliers_ordered_witness :
  energyOrdered (_critTiers (updateAll (BaseStats.new BaseStats.emptyConfig)
                               (mk 0 0 0 0 0 initialTiers 0 0))).
Proof.
  apply (energy_multipliers_ordered (BaseStats.new BaseStats.emptyConfig)
           (mk 0 0 0 0 0 initialTiers 0 0)).
  cbn. discriminate.
Defined.

End CombatFacts.

(** ** Critical tiers: reachability and chances *)

Section TierChances.

Import CombatStats.

Variable c : CharacterCombatStats.
Hypothesis thresholds : standardThresholds c.


End TierChances.

Lemma new_standardThresholds a s c :
  CombatStats.new (Some a) (Some s) = Some c -> CombatStats.standardThresholds c.
Proof. intros [= <-]. repeat split. Qed.

Lemma updateAll_standardThresholds s c :
  CombatStats.standardThresholds c ->
  CombatStats.standardThresholds (CombatStats.updateAll s c).
Proof. intros H. exact H. Qed.


(** The crit chance grows with TEC without bound, and with the thresholds
    of the constructor the tiers open at fixed TEC values: super can be
    reached exactly from TEC 144, mega from TEC 294 and omega from
    TEC 444. *)
Theorem crit_tiers_by_tec (s : BaseStats.CharacterBaseStats)
    (c : CombatStats.CharacterCombatStats) :
  CombatStats.standardThresholds c ->
  let c' := CombatStats.updateAll s c in
  CombatStats.standardThresholds c' /\
  CombatStats._critChance c' = 0.05 + BaseStats.tec s / 150 /\
  (CombatStats.canSuperCrit c' = true <-> 144 <= BaseStats.tec s) /\
  (CombatStats.canMegaCrit c' = true <-> 294 <= BaseStats.tec s) /\
  (CombatStats.canOmegaCrit c' = true <-> 444 <= BaseStats.tec s) /\
  (CombatStats.effectiveCritChance c' == 1 <-> 142.5 <= BaseStats.tec s).
Proof.
  intros H c'. assert (H' : CombatStats.standardThresholds c') by exact H.
  split; [exact H' |]. split; [reflexivity |].
  destruct H' as (_ & _ & Hs & Hm & Ho).
  unfold CombatStats.canSuperCrit, CombatStats.canMegaCrit,
    CombatStats.canOmegaCrit, CombatStats.effectiveCritChance.
  rewrite Hs, Hm, Ho. rewrite !geb_true.
  change (CombatStats._critChance c') with (0.05 + BaseStats.tec s / 150).
  unfold Qdiv. change (/ 150) with (1 # 150).
  repeat split; intros; js_clamp; lra.
Qed.

Lemma crit_tiers_by_tec_witness :
  CombatStats.canOmegaCrit
    (CombatStats.updateAll
       (BaseStats.new (BaseStats.mkConfig None None None None None (Some 475)
                         None None None))
       (CombatStats.mk 0 0 0 0 0 CombatStats.initialTiers 0 0)) = true.
Proof.
  apply (crit_tiers_by_tec
           (BaseStats.new (BaseStats.mkConfig None None None None None
                             (Some 475) None None None))
           (CombatStats.mk 0 0 0 0 0 CombatStats.initialTiers 0 0)).
  - repeat split.
  - cbn. discriminate.
Defined.

(** ** Critical-hit rolls: what can come out *)

Section RollOutcomes.

Import CombatStats.




Variable c : CharacterCombatStats.
Variable rolls : nat -> JS.number.
Variable i : nat.

Hypothesis thresholds : standardThresholds c.


End RollOutcomes.


(** ** Tier accessors by name *)

Section TierAccessors.

Import CombatStats.

Lemma lowerChar_idempotent ch : JS.lowerChar (JS.lowerChar ch) = JS.lowerChar ch.
Proof. destruct ch as [[] [] [] [] [] [] [] []]; reflexivity. Qed.

Lemma toLowerCase_idempotent str :
  JS.toLowerCase (JS.toLowerCase str) = JS.toLowerCase str.
Proof.
  induction str as [| ch str IH]; [reflexivity |].
  cbn [JS.toLowerCase]. now rewrite lowerChar_idempotent, IH.
Qed.

Lemma ownTier_tierKey n : ownTier (tierKey n) = Some n.
Proof. destruct n; reflexivity. Qed.

Lemma ownTier_none key :
  (forall n, key <> tierKey n) -> ownTier key = None.
Proof.
  intros H.
  assert (E : forall n, String.eqb (tierKey n) key = false)
    by (intros n; apply String.eqb_neq; intros E; now apply (H n)).
  unfold ownTier, tierNames. cbn [find].
  now rewrite (E normal), (E regular), (E super), (E mega), (E omega).
Qed.

Lemma inherited_In key :
  existsb (String.eqb key) inheritedKeys = true <-> In key inheritedKeys.
Proof.
  rewrite existsb_exists. split.
  - intros (y & Hy & E). apply String.eqb_eq in E. now subst.
  - intros H. exists key. split; [exact H | apply String.eqb_refl].
Qed.

(** The three accessors look the tier up by its lower-cased name, so they
    do not distinguish letter case: for a name that lower-cases to one of
    the five tiers they return that tier's multiplier (the energy one
    exactly when the damage type lower-cases to "energy", the physical one
    for every other damage type), defense-ignore fraction and knockback
    flag.  For any other name they return the fallbacks 1.0, 0 and false,
    except for the two names "constructor" and "__proto__", which every
    object inherits: there the lookup finds a value without tier
    properties and all three accessors return [undefined]. *)
Theorem crit_accessors_by_name (tierName damageType : string)
    (c : CharacterCombatStats) :
  (getCritMultiplier (JS.toLowerCase tierName) (JS.toLowerCase damageType) c
     = getCritMultiplier tierName damageType c /\
   getCritDefenseIgnore (JS.toLowerCase tierName) c
     = getCritDefenseIgnore tierName c /\
   getCritKnockback (JS.toLowerCase tierName) c
     = getCritKnockback tierName c) /\
  (forall n, JS.toLowerCase tierName = tierKey n ->
     getCritMultiplier tierName damageType c
       = Some (if String.eqb (JS.toLowerCase damageType) "energy"
               then energyMultiplier (tier n (_critTiers c))
               else physMultiplier (tier n (_critTiers c))) /\
     getCritDefenseIgnore tierName c
       = Some (defenseIgnore (tier n (_critTiers c))) /\
     getCritKnockback tierName c
       = Some (guaranteedKnockback (tier n (_critTiers c)))) /\
  ((forall n, JS.toLowerCase tierName <> tierKey n) ->
   ~ In (JS.toLowerCase tierName) inheritedKeys ->
   getCritMultiplier tierName damageType c = Some 1.0 /\
   getCritDefenseIgnore tierName c = Some 0 /\
   getCritKnockback tierName c = Some false) /\
  (In (JS.toLowerCase tierName) inheritedKeys ->
   getCritMultiplier tierName damageType c = None /\
   getCritDefenseIgnore tierName c = None /\
   getCritKnockback tierName c = None).
Proof.
  unfold getCritMultiplier, getCritDefenseIgnore, getCritKnockback,
    tierProperty.
  rewrite !toLowerCase_idempotent.
  split; [repeat split |]. split; [| split].
  - intros n ->. rewrite ownTier_tierKey. repeat split.
  - intros Hn Hi. rewrite (ownTier_none _ Hn).
    destruct (existsb _ inheritedKeys) eqn:E; [| repeat split].
    apply inherited_In in E. contradiction.
  - intros Hi.
    assert (Hn : ownTier (JS.toLowerCase tierName) = None).
    { apply ownTier_none. intros n E. rewrite E in Hi.
      destruct n; cbn in Hi; intuition discriminate. }
    rewrite Hn. apply inherited_In in Hi. rewrite Hi. repeat split.
Qed.

Lemma crit_accessors_by_name_witness :
  getCritDefenseIgnore "OmEgA" (mk 0 0 0 0 0 initialTiers 0 0) = Some 0.50
  /\ getCritMultiplier "unknown" "physical" (mk 0 0 0 0 0 initialTiers 0 0)
     = Some 1.0
  /\ getCritKnockback "constructor" (mk 0 0 0 0 0 initialTiers 0 0) = None.
Proof.
  split; [| split].
  - apply (crit_accessors_by_name "OmEgA" "physical"
             (mk 0 0 0 0 0 initialTiers 0 0)) with (n := omega).
    reflexivity.
  - apply (crit_accessors_by_name "unknown" "physical"
             (mk 0 0 0 0 0 initialTiers 0 0)).
    + intros []; discriminate.
    + cbn. intuition discriminate.
  - apply (crit_accessors_by_name "constructor" "physical"
             (mk 0 0 0 0 0 initialTiers 0 0)).
    cbn. tauto.
Defined.

(** The defense-ignore fractions and knockback flags are those of the
    constructor for the whole life of the object: 0 for normal and regular,
    0.25 for super and mega, 0.50 for omega, and guaranteed knockback for
    omega only, after construction and after any number of recomputes with
    any stats. *)
Theorem tier_effects_fixed (a : Attributes.CharacterAttributes)
    (s : BaseStats.CharacterBaseStats) (c : CharacterCombatStats)
    (updates : list BaseStats.CharacterBaseStats) :
  new (Some a) (Some s) = Some c ->
  let c' := fold_left (fun c0 s0 => updateAll s0 c0) updates c in
  standardThresholds c' /\
  forall n,
    getCritDefenseIgnore (tierKey n) c'
      = Some (match n with
              | normal | regular => 0
              | super | mega => 0.25
              | omega => 0.50
              end) /\
    getCritKnockback (tierKey n) c'
      = Some (match n with omega => true | _ => false end).
Proof.
  intros [= <-]. cbv zeta.
  set (c0 := updateAll s (mk 0 0 0 0 0 initialTiers 0 0)).
  assert (H0 : standardThresholds c0 /\
               forall n, defenseIgnore (tier n (_critTiers c0))
                         = defenseIgnore (tier n initialTiers) /\
                         guaranteedKnockback (tier n (_critTiers c0))
                         = guaranteedKnockback (tier n initialTiers))
    by (split; [repeat split | intros []; split; reflexivity]).
  clearbody c0. revert c0 H0.
  induction updates as [| s0 updates IH]; intros c0 [Ht Hn]; cbn [fold_left].
  - split; [exact Ht |]. intros n.
    unfold getCritDefenseIgnore, getCritKnockback, tierProperty.
    assert (El : JS.toLowerCase (tierKey n) = tierKey n)
      by (destruct n; reflexivity).
    rewrite El, ownTier_tierKey. destruct (Hn n) as [-> ->].
    destruct n; split; reflexivity.
  - apply IH. split; [exact Ht |].
    intros n. destruct (Hn n) as [Hd Hk]. rewrite <- Hd, <- Hk.
    destruct n; split; reflexivity.
Qed.

Lemma tier_effects_fixed_witness :
  getCritKnockback "omega"
    (updateAll (BaseStats.new BaseStats.emptyConfig)
       (updateAll (BaseStats.new BaseStats.emptyConfig)
          (mk 0 0 0 0 0 initialTiers 0 0)))
  = Some true.
Proof.
  pose proof (tier_effects_fixed (Attributes.new Attributes.emptyConfig)
                (BaseStats.new BaseStats.emptyConfig)
                (updateAll (BaseStats.new BaseStats.emptyConfig)
                   (mk 0 0 0 0 0 initialTiers 0 0))
                [BaseStats.new BaseStats.emptyConfig] eq_refl) as [_ H].
  exact (proj2 (H omega)).
Defined.

End TierAccessors.

(** ** Resistances *)

Section ResistanceFacts.

Import Resistances.



End ResistanceFacts.

(** ** Recomputes compose *)

Lemma combat_updateAll_idempotent s c :
  CombatStats.updateAll s (CombatStats.updateAll s c) = CombatStats.updateAll s c.
Proof.
  destruct c as [acc eva cc cd ecd [tn tr ts tm to] kb pu].
  destruct tn, tr, ts, tm, to.
  cbv beta iota zeta delta
    [CombatStats.updateAll CombatStats.calculatePursuit
     CombatStats.calculateKnockback CombatStats.calculateEnergyCritDamage
     CombatStats.calculateCritDamage CombatStats.calculateCritChance
     CombatStats.calculateEvasion CombatStats.calculateAccuracy
     CombatStats._accuracy CombatStats._evasion CombatStats._critChance
     CombatStats._critDamage CombatStats._energyCritDamage
     CombatStats._critTiers CombatStats._knockback CombatStats._pursuit
     CombatStats.t_normal CombatStats.t_regular CombatStats.t_super
     CombatStats.t_mega CombatStats.t_omega CombatStats.set_physMultiplier
     CombatStats.set_energyMultiplier CombatStats.threshold
     CombatStats.physMultiplier CombatStats.energyMultiplier
     CombatStats.defenseIgnore CombatStats.guaranteedKnockback].
  reflexivity.
Qed.

Lemma resistances_updateAll_overwrites s x x' :
  Resistances.updateAll s x = Resistances.updateAll s x'.
Proof.
  unfold Resistances.updateAll, Resistances.calculateStatusResistance,
    Resistances.calculateEnergyResistance,
    Resistances.calculatePhysicalResistance.
  cbn [Resistances._physicalResist Resistances._energyResist
       Resistances._statusResist]. reflexivity.
Qed.

Lemma calculateMaxValues_handleStatChange a s r :
  Resources.calculateMaxValues a s (Resources.handleStatChange a s r)
  = Resources.handleStatChange a s r.
Proof.
  unfold Resources.handleStatChange, Resources.calculateMaxValues.
  cbn [Resources.set Resources.get Resources.maxHealth Resources.maxKi
       Resources.maxStamina Resources.health Resources.ki Resources.stamina
       Resources.fatigue]. reflexivity.
Qed.

Lemma calculateMaxValues_setToMax a s r :
  Resources.calculateMaxValues a s
    (Resources.setToMax (Resources.calculateMaxValues a s r))
  = Resources.setToMax (Resources.calculateMaxValues a s r).
Proof.
  unfold Resources.setToMax, Resources.calculateMaxValues.
  cbn [Resources.maxHealth Resources.maxKi Resources.maxStamina
       Resources.health Resources.ki Resources.stamina Resources.fatigue].
  reflexivity.
Qed.

(** The components after the four [handleStatChange] calls are in sync
    with the stats they were recomputed from. *)
Lemma propagate_inSync s ch h :
  h !! Character._baseStats ch = Some s ->
  Attributes.baseStats (Character._attributes ch)
    = Some (Character._baseStats ch) ->
  Character.inSync (Character.propagate s ch) h.
Proof.
  intros Hs Hlink. exists s. unfold Character.propagate.
  cbn [Character._baseStats Character._attributes Character._resources
       Character._derivedStats Character._combatStats
       Character._resistances].
  split; [exact Hs |]. split; [exact Hlink |].
  split; [apply calculateMaxValues_handleStatChange |].
  split; [apply updateAll_overwrites |].
  split; [apply combat_updateAll_idempotent
         | apply resistances_updateAll_overwrites].
Qed.

(** ** The character as a whole *)

Section CharacterFacts.

Import Character.

Lemma floor_unique (y : Q) (z : Z) :
  inject_Z z <= y -> y < inject_Z (z + 1) -> Qfloor y = z.
Proof.
  intros Hl Hu.
  pose proof (Qfloor_le y) as Fl. pose proof (Qlt_floor y) as Fu.
  assert (H1 : (z < Qfloor y + 1)%Z) by (rewrite Zlt_Qlt; lra).
  assert (H2 : (Qfloor y < z + 1)%Z) by (rewrite Zlt_Qlt; lra).
  lia.
Qed.

(** [Math.floor] commutes with adding a whole number. *)
Lemma floor_add_integer x (n : Z) :
  JS.floor (x + inject_Z n) = JS.floor x + inject_Z n.
Proof.
  unfold JS.floor. rewrite <- inject_Z_plus. f_equal.
  apply floor_unique.
  - rewrite inject_Z_plus. pose proof (Qfloor_le x). lra.
  - rewrite !inject_Z_plus. pose proof (Qlt_floor x) as H.
    rewrite inject_Z_plus in H. lra.
Qed.

Lemma set_attributes_same ch : set_attributes (_attributes ch) ch = ch.
Proof. now destruct ch. Qed.

(** The constructor allocates the base-stat object at a reference not in
    use: no object of the store is overwritten or changed, so characters
    constructed one after the other never share base stats.  The new
    character is in sync with its object, carries the thresholds of the
    tier table, and has the configured name, or "Character". *)
Theorem new_character_fresh (cfg : Config)
    (h h' : gmap JS.ref BaseStats.CharacterBaseStats) (ch : Character) :
  new cfg h = Some (ch, h') ->
  h !! _baseStats ch = None /\
  (forall r, r <> _baseStats ch -> h' !! r = h !! r) /\
  (forall r s, h !! r = Some s -> r <> _baseStats ch /\ h' !! r = Some s) /\
  inSync ch h' /\
  CombatStats.standardThresholds (_combatStats ch) /\
  name ch = default "Character"%string (c_name cfg).
Proof.
  unfold new. cbn [mbind option_bind Resources.new DerivedStats.new
                   CombatStats.new Resistances.new].
  intros [= <- <-].
  cbn [_baseStats _attributes _resources _derivedStats _combatStats
       _resistances name].
  assert (Hfresh : h !! fresh (dom h) = None)
    by (apply not_elem_of_dom, is_fresh).
  split; [exact Hfresh |].
  split; [intros r Hr; now apply lookup_insert_ne |].
  split.
  - intros r s Hs.
    assert (Hne : r <> fresh (dom h)) by (intros ->; congruence).
    split; [exact Hne |]. rewrite lookup_insert_ne by congruence. exact Hs.
  - split; [| split; [repeat split | reflexivity]].
    eexists. split; [apply lookup_insert_eq |].
    cbn [_baseStats _attributes _resources _derivedStats _combatStats
         _resistances].
    split; [reflexivity |].
    split; [apply calculateMaxValues_setToMax |].
    split; [apply updateAll_overwrites |].
    split; [apply combat_updateAll_idempotent
           | apply resistances_updateAll_overwrites].
Qed.

Lemma new_character_fresh_witness :
  exists ch h',
    new (mkConfig None None None) ∅ = Some (ch, h') /\ inSync ch h'.
Proof.
  destruct (new (mkConfig None None None) ∅) as [[ch h'] |] eqn:E.
  - exists ch, h'. split; [reflexivity |].
    apply (new_character_fresh (mkConfig None None None) ∅ h' ch E).
  - discriminate E.
Defined.

End CharacterFacts.

Lemma floor_shift x y (n : Z) :
  x == y + inject_Z n -> JS.floor x == JS.floor y + inject_Z n.
Proof.
  intros H. rewrite (floor_comp _ _ H), floor_add_integer. reflexivity.
Qed.

(** One more level raises the maxima by 10, 5 and 5. *)
Lemma maxima_next_level a a1 s r :
  Attributes.level a1 = Attributes.level a + 1 ->
  let m := Resources.calculateMaxValues a s r in
  let m1 := Resources.calculateMaxValues a1 s r in
  Resources.maxHealth m1 == Resources.maxHealth m + 10 /\
  Resources.maxKi m1 == Resources.maxKi m + 5 /\
  Resources.maxStamina m1 == Resources.maxStamina m + 5.
Proof.
  intros Hl. cbn [Resources.calculateMaxValues Resources.maxHealth
                  Resources.maxKi Resources.maxStamina]. rewrite Hl.
  set (l := Attributes.level a). clearbody l.
  repeat split.
  - apply (floor_shift _ _ 10). change (inject_Z 10) with 10. lra.
  - apply (floor_shift _ _ 5). change (inject_Z 5) with 5. lra.
  - apply (floor_shift _ _ 5). change (inject_Z 5) with 5. lra.
Qed.

Section CharacterMethods.

Import Character.

Variable ch : Character.
Variable h : gmap JS.ref BaseStats.CharacterBaseStats.

Hypothesis synced : inSync ch h.

(** [Character.levelUp] on a character in sync with its base stats and
    with current values not above their maxima: the level grows by 1 and
    the unallocated stat points by 5, while XP, threshold, skill points
    and potential stay (unlike [CharacterAttributes.levelUp], it grants no
    skill point and does not raise the threshold); the maxima of health,
    ki and stamina grow by exactly 10, 5 and 5; the current values and
    fatigue are not raised; the store is untouched and the character is in
    sync again. *)
Theorem character_levelUp :
  Resources.health (_resources ch) <= Resources.maxHealth (_resources ch) ->
  Resources.ki (_resources ch) <= Resources.maxKi (_resources ch) ->
  Resources.stamina (_resources ch) <= Resources.maxStamina (_resources ch) ->
  let ch' := fst (levelUp ch h) in
  snd (levelUp ch h) = h /\
  inSync ch' h /\
  (Attributes.level (_attributes ch') = Attributes.level (_attributes ch) + 1 /\
   Attributes.unallocatedStatPoints (_attributes ch')
     = Attributes.unallocatedStatPoints (_attributes ch) + 5 /\
   Attributes.skillPoints (_attributes ch')
     = Attributes.skillPoints (_attributes ch) /\
   Attributes.xp (_attributes ch') = Attributes.xp (_attributes ch) /\
   Attributes.xpToNextLevel (_attributes ch')
     = Attributes.xpToNextLevel (_attributes ch) /\
   Attributes.potential (_attributes ch')
     = Attributes.potential (_attributes ch)) /\
  (Resources.maxHealth (_resources ch')
     == Resources.maxHealth (_resources ch) + 10 /\
   Resources.maxKi (_resources ch') == Resources.maxKi (_resources ch) + 5 /\
   Resources.maxStamina (_resources ch')
     == Resources.maxStamina (_resources ch) + 5) /\
  (Resources.health (_resources ch') == Resources.health (_resources ch) /\
   Resources.ki (_resources ch') == Resources.ki (_resources ch) /\
   Resources.stamina (_resources ch') == Resources.stamina (_resources ch) /\
   Resources.fatigue (_resources ch') = Resources.fatigue (_resources ch)).
Proof.
  destruct synced as (s & Hs & Hlink & Hres & Hder & Hcom & Hrst).
  intros Hh Hk Hst. unfold levelUp. rewrite Hs. cbn [fst snd].
  set (a := _attributes ch) in *.
  set (a1 := Attributes.mk (Attributes.level a + 1) _ _ _ _ _ _ _ _ _).
  cbn [propagate set_attributes _attributes _resources _derivedStats
       _combatStats _resistances _baseStats name].
  destruct (maxima_next_level a a1 s (_resources ch) eq_refl)
    as (Mh & Mk & Ms).
  rewrite Hres in Mh, Mk, Ms.
  destruct (handleStatChange_caps a1 s (_resources ch))
    as (Ch & Ck & Cs & Cf & Cmh & Cmk & Cms).
  rewrite Cmh in Ch. rewrite Cmk in Ck. rewrite Cms in Cs.
  split; [reflexivity |]. split; [| split; [repeat split | split]].
  - exists s. cbn [_baseStats _attributes _resources _derivedStats
                   _combatStats _resistances].
    split; [exact Hs |]. split; [exact Hlink |].
    split; [apply calculateMaxValues_handleStatChange |].
    split; [apply updateAll_overwrites |].
    split; [apply combat_updateAll_idempotent
           | apply resistances_updateAll_overwrites].
  - rewrite Cmh, Cmk, Cms. repeat split; assumption.
  - rewrite Ch, Ck, Cs. repeat split; try exact Cf; apply Q.min_l; lra.
Qed.

End CharacterMethods.

Lemma character_levelUp_witness :
  let s := BaseStats.new BaseStats.emptyConfig in
  let ch :=
    Character.propagate s
      (Character.mk "Goku" 0%nat
         (Attributes.new
            (Character.linkBaseStats 0%nat Attributes.emptyConfig))
         (Resources.mk 0 0 0 0 0 0 0) (DerivedStats.mk 0 0 0 0)
         (CombatStats.mk 0 0 0 0 0 CombatStats.initialTiers 0 0)
         (Resistances.mk 0 0 0)) in
  snd (Character.levelUp ch {[ 0%nat := s ]}) = {[ 0%nat := s ]}
  /\ Resources.maxHealth
       (Character._resources (fst (Character.levelUp ch {[ 0%nat := s ]})))
     == Resources.maxHealth (Character._resources ch) + 10.
Proof.
  intros s ch.
  destruct (character_levelUp ch {[ 0%nat := s ]})
    as (Hstore & _ & _ & (Hmax & _) & _).
  - apply propagate_inSync; [apply lookup_singleton_eq | reflexivity].
  - vm_compute. discriminate.
  - vm_compute. discriminate.
  - vm_compute. discriminate.
  - split; [exact Hstore | exact Hmax].
Defined.

Section CharacterAllocation.

Import Character.

Variable ch : Character.
Variable h : gmap JS.ref BaseStats.CharacterBaseStats.

Hypothesis synced : inSync ch h.

(** [Character.allocateStatPoint] on a character in sync with its base
    stats.  Without unallocated points, or with a key that is not a stat
    key, the character and the store stay exactly as they are.  With
    points left and a stat key, the shared base-stat object gets the named
    stat raised by 1, every other object of the store is untouched, one
    point is deducted, and the maxima, the derived, combat and resistance
    values are recomputed from the new stats, so that the character is in
    sync again; current health, ki and stamina are not raised. *)
Theorem character_allocateStatPoint (statKey : string) :
  let result := allocateStatPoint statKey ch h in
  (Attributes.unallocatedStatPoints (_attributes ch) <= 0 \/
   BaseStats.lookupKey statKey = None -> result = (ch, h)) /\
  (0 < Attributes.unallocatedStatPoints (_attributes ch) ->
   forall k, BaseStats.lookupKey statKey = Some k ->
   exists s,
     h !! _baseStats ch = Some s /\
     let s' := BaseStats.set k (BaseStats.get k s + 1) s in
     snd result = <[_baseStats ch := s']> h /\
     (forall r, r <> _baseStats ch -> snd result !! r = h !! r) /\
     inSync (fst result) (snd result) /\
     Attributes.unallocatedStatPoints (_attributes (fst result))
       = Attributes.unallocatedStatPoints (_attributes ch) - 1 /\
     Attributes.level (_attributes (fst result))
       = Attributes.level (_attributes ch) /\
     _combatStats (fst result) = CombatStats.updateAll s' (_combatStats ch) /\
     _resistances (fst result) = Resistances.updateAll s' (_resistances ch) /\
     Resources.health (_resources (fst result))
       <= Resources.health (_resources ch) /\
     Resources.ki (_resources (fst result)) <= Resources.ki (_resources ch) /\
     Resources.stamina (_resources (fst result))
       <= Resources.stamina (_resources ch)).
Proof.
  destruct synced as (s & Hs & Hlink & Hres & Hder & Hcom & Hrst).
  cbv zeta. unfold allocateStatPoint, Attributes.allocateStatPoint,
    BaseStats.validKey.
  rewrite Hlink, Hs. split.
  - intros [Hpts | Hkey].
    + assert (E : JS.gtb (Attributes.unallocatedStatPoints (_attributes ch)) 0
                  = false) by now apply gtb_false.
      now rewrite E.
    + rewrite Hkey. cbn [negb].
      destruct (JS.gtb _ 0); [| reflexivity].
      destruct (JS.leb _ 0); now rewrite set_attributes_same.
  - intros Hpts k Hkey.
    assert (E1 : JS.gtb (Attributes.unallocatedStatPoints (_attributes ch)) 0
                 = true) by now apply gtb_true.
    assert (E2 : JS.leb (Attributes.unallocatedStatPoints (_attributes ch)) 0
                 = false) by now apply leb_false.
    rewrite E1, E2, Hkey. cbn [negb].
    rewrite (increaseStat_one statKey k s Hkey).
    rewrite lookup_insert_eq. cbn [fst snd].
    exists s. split; [reflexivity |]. cbv zeta.
    split; [reflexivity |].
    split; [intros r Hr; now apply lookup_insert_ne |].
    cbn [propagate set_attributes _attributes _resources _derivedStats
         _combatStats _resistances _baseStats name].
    split.
    { apply (propagate_inSync
               (BaseStats.set k (BaseStats.get k s + 1) s)
               (set_attributes
                  (Attributes.set_unallocatedStatPoints
                     (Attributes.unallocatedStatPoints (_attributes ch) - 1)
                     (_attributes ch)) ch));
        [apply lookup_insert_eq | exact Hlink]. }
    destruct (handleStatChange_caps
                (Attributes.set_unallocatedStatPoints
                   (Attributes.unallocatedStatPoints (_attributes ch) - 1)
                   (_attributes ch))
                (BaseStats.set k (BaseStats.get k s + 1) s) (_resources ch))
      as (Ch & Ck & Cs & _).
    repeat split; try (rewrite Ch || rewrite Ck || rewrite Cs);
      apply Q.le_min_l.
Qed.

End CharacterAllocation.

Lemma character_allocateStatPoint_witness :
  let s := BaseStats.new BaseStats.emptyConfig in
  let ch :=
    Character.propagate s
      (Character.mk "Goku" 0%nat
         (Attributes.new
            (Character.linkBaseStats 0%nat
               (Attributes.mkConfig None None None None None None (Some 5)
                  None None None)))
         (Resources.mk 0 0 0 0 0 0 0) (DerivedStats.mk 0 0 0 0)
         (CombatStats.mk 0 0 0 0 0 CombatStats.initialTiers 0 0)
         (Resistances.mk 0 0 0)) in
  exists s0,
    ({[ 0%nat := s ]} : gmap JS.ref BaseStats.CharacterBaseStats) !! 0%nat
      = Some s0 /\
    snd (Character.allocateStatPoint "vit" ch {[ 0%nat := s ]})
    = <[ 0%nat
         := BaseStats.set BaseStats.VIT (BaseStats.get BaseStats.VIT s0 + 1) s0 ]>
        {[ 0%nat := s ]}.
Proof.
  intros s ch.
  destruct (character_allocateStatPoint ch {[ 0%nat := s ]})
    with (statKey := "vit"%string) as (_ & H).
  - apply propagate_inSync; [apply lookup_singleton_eq | reflexivity].
  - destruct (H ltac:(reflexivity) BaseStats.VIT eq_refl)
      as (s0 & Hs & Hstore & _).
    exists s0. split; [exact Hs | exact Hstore].
Defined.

Section CharacterDamage.

Import Character.

Variable ch : Character.
Variable h : gmap JS.ref BaseStats.CharacterBaseStats.

Hypothesis bounded : Resources.inBounds (_resources ch).




End CharacterDamage.


(** ** Potential: calls compose *)

Section PotentialCalls.

Import Attributes.

Lemma increasePotentials_cap amounts a :
  potentialCap (increasePotentials amounts a) = potentialCap a.
Proof.
  revert a. induction amounts as [| x amounts IH]; intros a; [reflexivity |].
  cbn [increasePotentials fold_left].
  change (fold_left _ amounts ?b) with (increasePotentials amounts b).
  now rewrite IH.
Qed.

(** Any number of [increasePotential] calls with non-negative amounts, from
    a potential within its cap, amounts to a single call with the sum: the
    potential ends as min(potential + sum, potentialCap); it never
    decreases and never exceeds the cap, and the cap itself is never
    changed. *)
Theorem increasePotential_accumulates (amounts : list JS.number)
    (a : CharacterAttributes) :
  potential a <= potentialCap a ->
  Forall (fun x => 0 <= x) amounts ->
  let total := fold_right Qplus 0 amounts in
  potential (increasePotentials amounts a)
    == Qmin (potential a + total) (potentialCap a) /\
  potential (increasePotentials amounts a)
    == potential (increasePotential total a) /\
  potential a <= potential (increasePotentials amounts a) /\
  potential (increasePotentials amounts a) <= potentialCap a /\
  potentialCap (increasePotentials amounts a) = potentialCap a.
Proof.
  intros Hcap Hpos.
  assert (Hmain : 0 <= fold_right Qplus 0 amounts /\
            potential (increasePotentials amounts a)
            == Qmin (potential a + fold_right Qplus 0 amounts) (potentialCap a)).
  { revert a Hcap. induction Hpos as [| x amounts Hx Hpos IH]; intros a Hcap.
    - cbn [fold_right increasePotentials fold_left]. split; [lra |].
      js_clamp; lra.
    - cbn [fold_right increasePotentials fold_left].
      change (fold_left _ amounts ?b) with (increasePotentials amounts b).
      destruct (IH (increasePotential x a)) as [Hs Hp].
      { apply increasePotential_capped. }
      split; [lra |]. rewrite Hp.
      cbn [increasePotential set_potential potential potentialCap].
      set (S := fold_right Qplus 0 amounts) in *. clearbody S.
      js_clamp; lra. }
  destruct Hmain as [Hs Hp]. cbv zeta.
  split; [exact Hp |].
  split; [rewrite Hp; reflexivity |].
  split; [| split].
  - rewrite Hp. js_clamp; lra.
  - rewrite Hp. apply Q.le_min_r.
  - apply increasePotentials_cap.
Qed.

Lemma increasePotential_accumulates_witness :
  potential (increasePotentials [0.05; 0.3; 0.9]
               (new (mkConfig None None None None (Some 0.15) None None None
                       (Some 1.0) None)))
  == 1.0.
Proof.
  destruct (increasePotential_accumulates [0.05; 0.3; 0.9]
              (new (mkConfig None None None None (Some 0.15) None None None
                      (Some 1.0) None))) as (H & _).
  - cbn. discriminate.
  - repeat constructor; cbn; discriminate.
  - rewrite H. vm_compute. reflexivity.
Defined.

End PotentialCalls.

(** ** Sequences of character methods *)

Section CharacterRuns.

Import Character.

Lemma maxima_nonneg a s r :
  BaseStats.allNonneg s -> 0 <= Attributes.level a ->
  0 <= Resources.maxHealth (Resources.calculateMaxValues a s r) /\
  0 <= Resources.maxKi (Resources.calculateMaxValues a s r) /\
  0 <= Resources.maxStamina (Resources.calculateMaxValues a s r).
Proof.
  intros Hs Hl.
  pose proof (Hs BaseStats.HP). pose proof (Hs BaseStats.KI).
  pose proof (Hs BaseStats.STA). pose proof (Hs BaseStats.VIT).
  pose proof (Hs BaseStats.WIS). pose proof (Hs BaseStats.AURA).
  pose proof (Hs BaseStats.AGI). cbn [BaseStats.get] in *.
  unfold Resources.calculateMaxValues.
  cbn [Resources.maxHealth Resources.maxKi Resources.maxStamina].
  change (BaseStats.getStat (BaseStats.StatKeys BaseStats.HP) s) with (BaseStats.hp s).
  change (BaseStats.getStat (BaseStats.StatKeys BaseStats.KI) s) with (BaseStats.ki s).
  change (BaseStats.getStat (BaseStats.StatKeys BaseStats.STA) s) with (BaseStats.sta s).
  change (BaseStats.getStat (BaseStats.StatKeys BaseStats.VIT) s) with (BaseStats.vit s).
  change (BaseStats.getStat (BaseStats.StatKeys BaseStats.WIS) s) with (BaseStats.wis s).
  change (BaseStats.getStat (BaseStats.StatKeys BaseStats.AURA) s) with (BaseStats.aura s).
  change (BaseStats.getStat (BaseStats.StatKeys BaseStats.AGI) s) with (BaseStats.agi s).
  repeat split; apply floor_nonneg; lra.
Qed.

Lemma set_allNonneg k v s :
  BaseStats.allNonneg s -> 0 <= v -> BaseStats.allNonneg (BaseStats.set k v s).
Proof.
  intros Hs Hv k'. pose proof (Hs k') as Hk'.
  destruct k, k'; cbn [BaseStats.get BaseStats.set] in *; assumption.
Qed.

Lemma calculateMaxValues_takeDamage a s m r :
  Resources.calculateMaxValues a s r = r ->
  Resources.calculateMaxValues a s (snd (Resources.takeDamage m r))
  = snd (Resources.takeDamage m r).
Proof.
  intros H. unfold Resources.takeDamage.
  destruct (JS.leb m 0); cbn [snd]; [exact H |].
  destruct r as [mh mk ms hh kk st ft].
  unfold Resources.calculateMaxValues in H.
  cbn [Resources.health Resources.ki Resources.stamina Resources.fatigue] in H.
  injection H as H1 H2 H3.
  unfold Resources._modifyResource, Resources.calculateMaxValues.
  cbn [snd Resources.set Resources.get Resources.health Resources.ki
       Resources.stamina Resources.fatigue Resources.maxHealth
       Resources.maxKi Resources.maxStamina].
  f_equal; assumption.
Qed.

(** The four [handleStatChange] calls keep a character in good standing
    for the stats they are given. *)
Lemma propagate_wellFormed s ch h :
  h !! _baseStats ch = Some s ->
  Attributes.baseStats (_attributes ch) = Some (_baseStats ch) ->
  BaseStats.allNonneg s -> 0 <= Attributes.level (_attributes ch) ->
  Resources.inBounds (_resources ch) ->
  wellFormed (propagate s ch, h).
Proof.
  intros Hs Hlink Hn Hl Hb. exists s. unfold propagate.
  cbn [fst snd _baseStats _attributes _resources _derivedStats _combatStats
       _resistances].
  split; [exact Hs |]. split; [exact Hlink |]. split; [exact Hn |].
  split; [exact Hl |].
  split; [apply calculateMaxValues_handleStatChange |].
  split; [apply combat_updateAll_idempotent |].
  split; [apply resistances_updateAll_overwrites |].
  destruct (maxima_nonneg (_attributes ch) s (_resources ch) Hn Hl)
    as (M1 & M2 & M3).
  now apply handleStatChange_inBounds.
Qed.

Lemma perform_wellFormed c w : wellFormed w -> wellFormed (perform c w).
Proof.
  destruct w as [ch h].
  intros (s & Hs & Hlink & Hn & Hl & Hres & Hcom & Hrst & Hb).
  cbn [fst snd] in *. destruct c as [| statKey | amount type]; cbn [perform fst snd].
  - unfold levelUp. rewrite Hs.
    apply propagate_wellFormed; cbn [set_attributes _baseStats _attributes
                                     _resources Attributes.baseStats
                                     Attributes.level];
      try assumption. lra.
  - assert (Hsame : wellFormed (ch, h))
      by exact (ex_intro _ s (conj Hs (conj Hlink (conj Hn (conj Hl
            (conj Hres (conj Hcom (conj Hrst Hb)))))))).
    unfold allocateStatPoint, Attributes.allocateStatPoint, BaseStats.validKey.
    rewrite Hlink, Hs.
    destruct (JS.gtb _ 0); [| exact Hsame].
    destruct (JS.leb _ 0); [now rewrite set_attributes_same |].
    destruct (BaseStats.lookupKey statKey) as [k |] eqn:Ek; cbn [negb];
      [| now rewrite set_attributes_same].
    rewrite (increaseStat_one statKey k s Ek), lookup_insert_eq.
    apply propagate_wellFormed;
      cbn [set_attributes _baseStats _attributes _resources
           Attributes.set_unallocatedStatPoints Attributes.baseStats
           Attributes.level]; try assumption.
    + apply lookup_insert_eq.
    + apply set_allNonneg; [exact Hn |]. pose proof (Hn k). lra.
  - unfold takeDamage. exists s.
    cbn [fst snd set_resources _baseStats _attributes _resources
         _combatStats _resistances].
    split; [exact Hs |]. split; [exact Hlink |]. split; [exact Hn |].
    split; [exact Hl |].
    split; [now apply calculateMaxValues_takeDamage |].
    split; [exact Hcom |]. split; [exact Hrst |].
    apply (perform_inBounds (Resources.CallTakeDamage _) _ Hb).
Qed.

Lemma level_new_link r cfg :
  Attributes.level (Attributes.new (linkBaseStats r cfg))
  = default 1 (Attributes.c_level cfg).
Proof. reflexivity. Qed.

Lemma setToMax_inBounds a s r :
  BaseStats.allNonneg s -> 0 <= Attributes.level a ->
  Resources.fatigue r == 0 ->
  Resources.inBounds (Resources.setToMax (Resources.calculateMaxValues a s r)).
Proof.
  intros Hn Hl Hf.
  destruct (maxima_nonneg a s r Hn Hl) as (M1 & M2 & M3).
  assert (Hfm : Resources.fatigue (Resources.calculateMaxValues a s r)
                = Resources.fatigue r) by reflexivity.
  set (m := Resources.calculateMaxValues a s r) in *. clearbody m.
  unfold Resources.inBounds, Resources.setToMax.
  destruct m as [mh mk ms hh kk st ft].
  cbn [Resources.maxHealth Resources.maxKi Resources.maxStamina
       Resources.health Resources.ki Resources.stamina Resources.fatigue] in *.
  rewrite Hfm. repeat split; lra.
Qed.

Lemma new_wellFormed nm r a s com0 rst0 der h :
  BaseStats.allNonneg s -> 0 <= Attributes.level a ->
  Attributes.baseStats a = Some r ->
  wellFormed
    (mk nm r a
       (Resources.setToMax
          (Resources.calculateMaxValues a s (Resources.mk 0 0 0 0 0 0 0)))
       der (CombatStats.updateAll s com0) (Resistances.updateAll s rst0),
     <[r := s]> h).
Proof.
  intros Hn Hl Hlink. exists s.
  cbn [fst snd _baseStats _attributes _resources _combatStats _resistances].
  split; [apply lookup_insert_eq |]. split; [exact Hlink |].
  split; [exact Hn |]. split; [exact Hl |].
  split; [apply calculateMaxValues_setToMax |].
  split; [apply combat_updateAll_idempotent |].
  split; [apply resistances_updateAll_overwrites |].
  apply setToMax_inBounds; [exact Hn | exact Hl | reflexivity].
Qed.

(** A character constructed from non-negative stats and a non-negative
    level is in good standing, and every sequence of [levelUp],
    [allocateStatPoint] and [takeDamage] calls, with arbitrary keys,
    amounts and damage types, keeps it so: its resources stay within the
    pool bounds, its base stats non-negative, and its maxima, combat
    values and resistances are always the ones computed from the current
    base stats. *)
Theorem character_stays_wellFormed (cfg : Config)
    (h h' : gmap JS.ref BaseStats.CharacterBaseStats) (ch : Character)
    (calls : list Call) :
  BaseStats.allNonneg
    (BaseStats.new (default BaseStats.emptyConfig (baseStatsConfig cfg))) ->
  0 <= default 1
         (Attributes.c_level (default Attributes.emptyConfig (attributesConfig cfg))) ->
  new cfg h = Some (ch, h') ->
  wellFormed (ch, h') /\ wellFormed (run calls (ch, h')).
Proof.
  intros Hn Hl Hnew.
  assert (H0 : wellFormed (ch, h')).
  { revert Hnew. unfold new.
    cbn [mbind option_bind Resources.new DerivedStats.new CombatStats.new
         Resistances.new].
    intros [= <- <-].
    apply new_wellFormed;
      [exact Hn | rewrite level_new_link; exact Hl | reflexivity]. }
  split; [exact H0 |].
  unfold run. revert H0. generalize (ch, h'). clear.
  induction calls as [| c calls IH]; intros w Hw; cbn [fold_left];
    [exact Hw |].
  apply IH. now apply perform_wellFormed.
Qed.

Lemma character_stays_wellFormed_witness :
  exists ch h',
    new (mkConfig None None None) ∅ = Some (ch, h') /\
    wellFormed
      (run [CallLevelUp; CallAllocateStatPoint "str";
            CallTakeDamage 30 None; CallTakeDamage 500 (Some "energy"%string);
            CallAllocateStatPoint "luck"]
         (ch, h')).
Proof.
  destruct (new (mkConfig None None None) ∅) as [[ch h'] |] eqn:E.
  - exists ch, h'. split; [reflexivity |].
    apply (character_stays_wellFormed (mkConfig None None None) ∅ h' ch).
    + intros k. destruct k; cbn; discriminate.
    + cbn. discriminate.
    + exact E.
  - discriminate E.
Defined.

End CharacterRuns.
